(** * Prosto Flowers shop bot: catalog cache, filters and callback tokens

    A shallow embedding of the catalog layer of [main.py]:
    [normalize_tag], [TAG_MAPPINGS], [safe_callback_data],
    [filter_products_by_tag], [get_all_products],
    [filter_products_by_price], [cache_products] and the handle lookup of
    [product_detail], together with the Python built-ins they call
    ([str] methods, [float], [hashlib.sha1], [str.encode]). *)

From Stdlib Require Import Ascii String.
From Stdlib Require Import NArith ZArith List Bool Lia.
From Stdlib Require Import Floats.SpecFloat.
Import ListNotations.

Set Implicit Arguments.

(* ================================================================== *)
(** * Python strings *)
(* ================================================================== *)

(** A Python [str] is a sequence of Unicode code points and [len] counts
    code points; [bytes] is a sequence of octets.  Lone surrogates, which
    CPython admits in a [str] but refuses to encode, are not part of the
    model: a [str] here is a sequence of Unicode scalar values. *)
Module Py.

Definition str := list N.
Definition bytes := list N.

(** ASCII literal to [str]. *)
Definition lit (s : string) : str :=
  map N_of_ascii (list_ascii_of_string s).

Fixpoint str_eqb (a b : str) : bool :=
  match a, b with
  | [], [] => true
  | x :: a', y :: b' => N.eqb x y && str_eqb a' b'
  | _, _ => false
  end.

(** [x in l] for a list of strings. *)
Definition str_in (x : str) (l : list str) : bool := existsb (str_eqb x) l.

(** [len(s)] as a Python integer. *)
Definition len (s : str) : Z := Z.of_nat (length s).

(** [s.encode()]: UTF-8. *)
Definition utf8_char (c : N) : bytes :=
  if (c <? 0x80)%N then [c]
  else if (c <? 0x800)%N then
    [N.lor 0xC0 (N.shiftr c 6); N.lor 0x80 (N.land c 0x3F)]
  else if (c <? 0x10000)%N then
    [N.lor 0xE0 (N.shiftr c 12);
     N.lor 0x80 (N.land (N.shiftr c 6) 0x3F);
     N.lor 0x80 (N.land c 0x3F)]
  else
    [N.lor 0xF0 (N.shiftr c 18);
     N.lor 0x80 (N.land (N.shiftr c 12) 0x3F);
     N.lor 0x80 (N.land (N.shiftr c 6) 0x3F);
     N.lor 0x80 (N.land c 0x3F)].

Definition encode (s : str) : bytes := flat_map utf8_char s.

Definition is_ascii (s : str) : bool := forallb (fun c => (c <? 128)%N) s.

(** [str.isspace] on one code point ([_PyUnicode_IsWhitespace]). *)
Definition isspace (c : N) : bool :=
  ((9 <=? c) && (c <=? 13) || (28 <=? c) && (c <=? 32)
   || (c =? 0x85) || (c =? 0xA0) || (c =? 0x1680)
   || (0x2000 <=? c) && (c <=? 0x200A)
   || (c =? 0x2028) || (c =? 0x2029) || (c =? 0x202F)
   || (c =? 0x205F) || (c =? 0x3000))%N.

Fixpoint lstrip (s : str) : str :=
  match s with
  | c :: s' => if isspace c then lstrip s' else s
  | [] => []
  end.

Definition rstrip (s : str) : str := rev (lstrip (rev s)).

(** [s.strip()] *)
Definition strip (s : str) : str := rstrip (lstrip s).

(** [s.replace(c, "")] for a one-character [c]. *)
Definition remove_char (c : N) (s : str) : str :=
  filter (fun x => negb (x =? c)%N) s.

(** [s.split(c)] for a one-character separator: every occurrence splits,
    empty fields are kept, and the empty string gives one empty field. *)
Fixpoint split (c : N) (s : str) : list str :=
  match s with
  | [] => [[]]
  | x :: s' =>
      if (x =? c)%N then [] :: split c s'
      else match split c s' with
           | f :: fs => (x :: f) :: fs
           | [] => [[x]]
           end
  end.

(** [s.split(c, 1)]: at the first occurrence only. *)
Fixpoint split1 (c : N) (s : str) : list str :=
  match s with
  | [] => [[]]
  | x :: s' =>
      if (x =? c)%N then [[]; s']
      else match split1 c s' with
           | f :: fs => (x :: f) :: fs
           | [] => [[x]]
           end
  end.

Definition ascii_lower (c : N) : N :=
  if ((65 <=? c) && (c <=? 90))%N then (c + 32)%N else c.

End Py.

(* ================================================================== *)
(** * hashlib.sha1 *)
(* ================================================================== *)

(** SHA-1 (FIPS 180-4) on octet strings, 32-bit words as [N] with the
    wrap-around written out. *)
Module Sha1.

Definition w32 (x : N) : N := N.land x 0xFFFFFFFF.
Definition add32 (a b : N) : N := w32 (a + b).
Definition rotl (n x : N) : N :=
  w32 (N.lor (N.shiftl x n) (N.shiftr x (32 - n))).
Definition not32 (x : N) : N := N.lxor (w32 x) 0xFFFFFFFF.

(** big-endian octets of a 64-bit length *)
Definition be64 (x : N) : Py.bytes :=
  map (fun i => N.land (N.shiftr x (8 * i)) 0xFF) [7; 6; 5; 4; 3; 2; 1; 0]%N.

Definition pad (m : Py.bytes) : Py.bytes :=
  let l := N.of_nat (length m) in
  let k := ((119 - l mod 64) mod 64)%N in
  m ++ [0x80%N] ++ repeat 0%N (N.to_nat k) ++ be64 (8 * l).

Fixpoint words (bs : Py.bytes) : list N :=
  match bs with
  | a :: b :: c :: d :: r =>
      N.lor (N.lor (N.shiftl a 24) (N.shiftl b 16)) (N.lor (N.shiftl c 8) d)
      :: words r
  | _ => []
  end.

Fixpoint blocks (fuel : nat) (ws : list N) : list (list N) :=
  match fuel, ws with
  | S f, _ :: _ => firstn 16 ws :: blocks f (skipn 16 ws)
  | _, _ => []
  end.

Record state := St { h0 : N; h1 : N; h2 : N; h3 : N; h4 : N }.

Definition init : state :=
  St 0x67452301 0xEFCDAB89 0x98BADCFE 0x10325476 0xC3D2E1F0.

Definition f (t b c d : N) : N :=
  if (t <? 20)%N then N.lor (N.land b c) (N.land (not32 b) d)
  else if (t <? 40)%N then N.lxor (N.lxor b c) d
  else if (t <? 60)%N then
    N.lor (N.lor (N.land b c) (N.land b d)) (N.land c d)
  else N.lxor (N.lxor b c) d.

Definition k (t : N) : N :=
  if (t <? 20)%N then 0x5A827999
  else if (t <? 40)%N then 0x6ED9EBA1
  else if (t <? 60)%N then 0x8F1BBCDC
  else 0xCA62C1D6.

(** [w] is the window [W(t) .. W(t+15)] of the message schedule. *)
Fixpoint rounds (n : nat) (t : N) (w : list N) (s : state) : state :=
  match n with
  | O => s
  | S n' =>
      let wt := nth 0 w 0%N in
      let tmp :=
        add32 (add32 (add32 (add32 (rotl 5 (h0 s)) (f t (h1 s) (h2 s) (h3 s)))
                            (h4 s)) (k t)) wt in
      let wn :=
        rotl 1 (N.lxor (N.lxor (nth 13 w 0%N) (nth 8 w 0%N))
                       (N.lxor (nth 2 w 0%N) wt)) in
      rounds n' (t + 1)%N (tl w ++ [wn])
             (St tmp (h0 s) (rotl 30 (h1 s)) (h2 s) (h3 s))
  end.

Definition compress (s : state) (blk : list N) : state :=
  let r := rounds 80 0 blk s in
  St (add32 (h0 s) (h0 r)) (add32 (h1 s) (h1 r)) (add32 (h2 s) (h2 r))
     (add32 (h3 s) (h3 r)) (add32 (h4 s) (h4 r)).

Definition sha1 (m : Py.bytes) : state :=
  let ws := words (pad m) in
  fold_left compress (blocks (length ws) ws) init.

Definition hexdigit (n : N) : N :=
  if (n <? 10)%N then (48 + n)%N else (87 + n)%N.

Definition hex8 (w : N) : Py.str :=
  map (fun i => hexdigit (N.land (N.shiftr w (4 * i)) 15))
      [7; 6; 5; 4; 3; 2; 1; 0]%N.

(** [hashlib.sha1(m).hexdigest()] *)
Definition hexdigest (m : Py.bytes) : Py.str :=
  let s := sha1 m in
  hex8 (h0 s) ++ hex8 (h1 s) ++ hex8 (h2 s) ++ hex8 (h3 s) ++ hex8 (h4 s).

Definition is_hex (c : N) : bool :=
  ((48 <=? c) && (c <=? 57) || (97 <=? c) && (c <=? 102))%N.

End Sha1.

(* ================================================================== *)
(** * Python floats and the [float()] constructor *)
(* ================================================================== *)

(** The Unicode tables of the interpreter that the program reaches through
    [str.lower] and [float]: they depend on the Python version and are
    taken as a parameter.  Both are only consulted on text that is not
    pure ASCII. *)
Class Unicode := {
  (** [str.lower] on a string that contains a non-ASCII character *)
  unicode_lower : Py.str -> Py.str;
  (** [Py_UNICODE_TODECIMAL] on a non-ASCII code point: the value of a
      decimal digit (category Nd), if it is one *)
  unicode_decimal : N -> option N
}.

Inductive exn :=
| TypeError | ValueError | OverflowError | AttributeError.

(** Outcome of a Python expression: a raised exception or a value. *)
Definition result (A : Type) : Type := exn + A.

Module PyFloat.

(** IEEE 754 binary64 *)
Definition float := spec_float.
Definition prec : Z := 53.
Definition emax : Z := 1024.

Definition inf : float := S754_infinity false.

(** Nearest-even binary64 of the integer [z]. *)
Definition round_Z (z : Z) : float := binary_normalize prec emax z 0 false.

(** [float(z)] for a Python [int]: [OverflowError] past the finite range. *)
Definition of_int (z : Z) : result float :=
  match round_Z z with
  | S754_infinity _ => inl OverflowError
  | x => inr x
  end.

(** Nearest-even binary64 of [(-1)^neg * m * 10^e]; overflow gives an
    infinity and underflow a (signed) zero or subnormal, as [strtod]. *)
Definition of_decimal (neg : bool) (m : N) (e : Z) : float :=
  match m with
  | N0 => S754_zero neg
  | Npos p =>
      if (0 <=? e)%Z then
        binary_round prec emax neg (Z.to_pos (Zpos p * 10 ^ e)) 0
      else
        let '(q, e', l) :=
          SFdiv_core_binary prec emax (Zpos p) 0 (10 ^ (- e)) 0 in
        binary_round_aux prec emax neg q e' l
  end.

(** Exact comparison of a Python [int] with a [float] ([a <= x], [x <= a],
    [a < x]): Python compares the mathematical values. *)
Definition Z_cmp_float (a : Z) (x : float) : option comparison :=
  match x with
  | S754_nan => None
  | S754_infinity s => Some (if s then Gt else Lt)
  | S754_zero _ => Some (a ?= 0)%Z
  | S754_finite s m e =>
      let v := if s then Zneg m else Zpos m in
      Some (if (0 <=? e)%Z then (a ?= v * 2 ^ e)%Z
            else (a * 2 ^ (- e) ?= v)%Z)
  end.

Definition int_le_float (a : Z) (x : float) : bool :=
  match Z_cmp_float a x with Some (Lt | Eq) => true | _ => false end.
Definition float_le_int (x : float) (a : Z) : bool :=
  match Z_cmp_float a x with Some (Gt | Eq) => true | _ => false end.
Definition float_gt_int (x : float) (a : Z) : bool :=
  match Z_cmp_float a x with Some Lt => true | _ => false end.

Definition float_le (x y : float) : bool := SFleb x y.
Definition float_sub (x y : float) : float := SFsub prec emax x y.

(** ** Parsing, after [PyFloat_FromString] *)

Definition is_digit (c : N) : bool := ((48 <=? c) && (c <=? 57))%N.

(** [Py_ISSPACE]: the C-locale white space *)
Definition c_isspace (c : N) : bool :=
  ((9 <=? c) && (c <=? 13) || (c =? 32))%N.

Section Parse.
Context {U : Unicode}.

(** [_PyUnicode_TransformDecimalAndSpaceToASCII] *)
Fixpoint transform (s : Py.str) : Py.str :=
  match s with
  | [] => []
  | ch :: r =>
      if (ch <? 127)%N then ch :: transform r
      else if Py.isspace ch then 32%N :: transform r
      else match (if (ch <? 128)%N then None else unicode_decimal ch) with
           | Some d => (48 + d)%N :: transform r
           | None => [63%N]
           end
  end.

Definition to_ascii (s : Py.str) : Py.str :=
  if Py.is_ascii s then s else transform s.

(** [_Py_string_to_number_with_underscores]: an underscore is dropped when
    it stands between two digits, and is an error anywhere else. *)
Fixpoint drop_underscores (prev : N) (s : Py.str) : option Py.str :=
  match s with
  | [] => if (prev =? 95)%N then None else Some []
  | c :: r =>
      if (c =? 95)%N then
        if is_digit prev then drop_underscores c r else None
      else if (prev =? 95)%N && negb (is_digit c) then None
      else option_map (cons c) (drop_underscores c r)
  end.

Definition without_underscores (s : Py.str) : option Py.str :=
  if existsb (N.eqb 95) s then drop_underscores 0 s else Some s.

Fixpoint lskip (s : Py.str) : Py.str :=
  match s with
  | c :: r => if c_isspace c then lskip r else s
  | [] => []
  end.

Fixpoint span_digits (s : Py.str) : Py.str * Py.str :=
  match s with
  | c :: r =>
      if is_digit c then let (ds, t) := span_digits r in (c :: ds, t)
      else ([], s)
  | [] => ([], [])
  end.

Definition digits_value (ds : Py.str) : N :=
  fold_left (fun a c => (10 * a + (c - 48))%N) ds 0%N.

Definition sign (s : Py.str) : bool * Py.str :=
  match s with
  | 45%N :: r => (true, r)
  | 43%N :: r => (false, r)
  | _ => (false, s)
  end.

(** The exponent part is taken only when it has a digit. *)
Definition exponent (s : Py.str) : Z * Py.str :=
  match s with
  | c :: r =>
      if ((c =? 101) || (c =? 69))%N then
        let (neg, r1) := sign r in
        let (ds, r2) := span_digits r1 in
        match ds with
        | [] => (0%Z, s)
        | _ => let v := Z.of_N (digits_value ds) in
               ((if neg then - v else v)%Z, r2)
        end
      else (0%Z, s)
  | [] => (0%Z, s)
  end.

(** [_Py_dg_strtod]: the float and the unread rest, or [None] when no
    digit could be read. *)
Definition strtod (s : Py.str) : option (float * Py.str) :=
  let (neg, s1) := sign s in
  let (ip, s2) := span_digits s1 in
  let (fp, s3) :=
    match s2 with
    | 46%N :: r => span_digits r
    | _ => ([], s2)
    end in
  match ip ++ fp with
  | [] => None
  | ds =>
      let (e, s4) := exponent s3 in
      Some (of_decimal neg (digits_value ds) (e - Z.of_nat (length fp)), s4)
  end.

(** Case-insensitive match of a lower-case ASCII pattern at the head. *)
Fixpoint match_nocase (pat s : Py.str) : option Py.str :=
  match pat, s with
  | [], _ => Some s
  | p :: pat', c :: s' =>
      if (Py.ascii_lower c =? p)%N then match_nocase pat' s' else None
  | _ :: _, [] => None
  end.

(** [_Py_parse_inf_or_nan] *)
Definition parse_inf_or_nan (s : Py.str) : option (float * Py.str) :=
  let (neg, s1) := sign s in
  match match_nocase (Py.lit "inf") s1 with
  | Some r =>
      match match_nocase (Py.lit "inity") r with
      | Some r' => Some (S754_infinity neg, r')
      | None => Some (S754_infinity neg, r)
      end
  | None =>
      match match_nocase (Py.lit "nan") s1 with
      | Some r => Some (S754_nan, r)
      | None => None
      end
  end.

(** [float_from_string_inner]: surrounding C white space is skipped and
    the whole of what is left must be read. *)
Definition float_from_string_inner (s : Py.str) : result float :=
  match rev (lskip (rev (lskip s))) with
  | [] => inl ValueError
  | t =>
      match strtod t with
      | Some (x, []) => inr x
      | Some (_, _ :: _) => inl ValueError
      | None =>
          match parse_inf_or_nan t with
          | Some (x, []) => inr x
          | _ => inl ValueError
          end
      end
  end.

(** [float(s)] for a [str] *)
Definition of_str (s : Py.str) : result float :=
  match without_underscores (to_ascii s) with
  | Some t => float_from_string_inner t
  | None => inl ValueError
  end.

End Parse.
End PyFloat.

(* ================================================================== *)
(** * The catalog layer of [main.py] *)
(* ================================================================== *)

Import Py.
Open Scope string_scope.
Open Scope list_scope.

(** Values that the JSON of the shop's API can put in a field. *)
#[warnings="-register-all"]
Inductive pyval :=
| PNone
| PBool (b : bool)
| PInt (z : Z)
| PFloat (x : PyFloat.float)
| PStr (s : str)
| PList (l : list pyval)
| PDict (d : list (str * pyval)).

(** The [tags] field: one comma-separated string or a list of strings. *)
Inductive tag_field :=
| TagStr (s : str)
| TagList (l : list str).

(** A product dictionary, with the keys this layer reads.  [handle] and
    [title] are indexed ([p['handle']]); [tags] and [price] are read with
    [.get] and may be absent. *)
Record product := Product {
  handle : str;
  title : str;
  tags : option tag_field;
  price : option pyval
}.

(** [d.get(k, default)] on a dictionary literal. *)
Fixpoint dict_get {V : Type} (d : list (str * V)) (k : str) (default : V) : V :=
  match d with
  | [] => default
  | (k', v) :: d' => if str_eqb k' k then v else dict_get d' k default
  end.

Definition dict_has {V : Type} (d : list (str * V)) (k : str) : bool :=
  existsb (fun kv => str_eqb (fst kv) k) d.

Definition TAG_MAPPINGS : list (str * list str) :=
  [ (* Price ranges *)
    (lit "under50", map lit ["under50"; "under 50"; "cheap"; "budget"]);
    (lit "50-150", map lit ["50-150"; "50 to 150"; "midrange"; "affordable"]);
    (lit "151-250", map lit ["151-250"; "151 to 250"; "premium"]);
    (lit "over250", map lit ["over250"; "over 250"; "luxury"]);
    (* Occasions *)
    (lit "anniversary", map lit ["anniversary"; "anniversaries"]);
    (lit "valentine", map lit ["valentine"; "valentines"; "valentine's day"]);
    (lit "romantic", map lit ["romantic"; "romance"; "love"]);
    (lit "getwell", map lit ["getwell"; "get well"; "recovery"; "feel better"]);
    (lit "wedding", map lit ["wedding"; "bridal"; "bridesmaid"]);
    (lit "birthday", map lit ["birthday"; "bday"; "birthdays"]);
    (lit "fathersday", map lit ["fathersday"; "father's day"; "dad"]);
    (* Flower types *)
    (lit "roses", map lit ["roses"; "rose"]);
    (lit "lilies", map lit ["lilies"; "lily"]);
    (lit "tulips", map lit ["tulips"; "tulip"]);
    (lit "orchids", map lit ["orchids"; "orchid"]);
    (lit "sunflowers", map lit ["sunflowers"; "sunflower"]);
    (lit "mixed", map lit ["mixed"; "assorted"; "variety"]) ].

(** ** [safe_callback_data] *)

(** [hashlib.sha1(data.encode()).hexdigest()[:8]] *)
Definition hash_id (data : str) : str :=
  firstn 8 (Sha1.hexdigest (encode data)).

Definition safe_callback_data (prefix data : str) : str :=
  let max_length := (64 - len prefix - 1)%Z in
  if (len data <=? max_length)%Z then prefix ++ lit "_" ++ data
  else prefix ++ lit "_" ++ hash_id data.

(** ** The handle lookup of [product_detail] *)

(** [prefix, data = callback_data.split('_', 1)], behind the guard
    ['_' not in query.data]. *)
Definition callback_payload (callback_data : str) : option str :=
  match split1 95 callback_data with
  | [_; data] => Some data
  | _ => None
  end.

(** The two branches that pick [product] out of the cached list. *)
Definition lookup_product (data : str) (cached : list product) : option product :=
  if (len data =? 8)%Z then
    find (fun p => str_eqb (hash_id (handle p)) data) cached
  else
    find (fun p => str_eqb (handle p) data) cached.

Section Catalog.
Context {U : Unicode}.

(** [str.lower] *)
Definition lower (s : str) : str :=
  if is_ascii s then map ascii_lower s else unicode_lower s.

Definition normalize_tag (tag : str) : str :=
  remove_char 39 (remove_char 45 (remove_char 32 (strip (lower tag)))).

(** ** [filter_products_by_tag] *)

(** [product.get('tags', [])], split on commas when it is a string. *)
Definition product_tags (p : product) : list str :=
  match tags p with
  | None => []
  | Some (TagStr s) => map strip (split 44 s)
  | Some (TagList l) => l
  end.

(** [any(tag in normalized_product_tags for tag in normalized_possible)] *)
Definition tag_match (normalized_possible : list str) (p : product) : bool :=
  let normalized_product_tags := map normalize_tag (product_tags p) in
  existsb (fun tag => str_in tag normalized_product_tags) normalized_possible.

Fixpoint tag_loop (normalized_possible : list str) (products filtered : list product)
  : list product :=
  match products with
  | [] => filtered
  | p :: rest =>
      if tag_match normalized_possible p
      then tag_loop normalized_possible rest (filtered ++ [p])
      else tag_loop normalized_possible rest filtered
  end.

Definition possible_tags (filter_value : str) : list str :=
  dict_get TAG_MAPPINGS filter_value [filter_value].

Definition filter_products_by_tag (products : list product) (filter_value : str)
  : list product :=
  match products with
  | [] => []
  | _ =>
      let normalized_possible := map normalize_tag (possible_tags filter_value) in
      tag_loop normalized_possible products []
  end.

(** ** [filter_products_by_price] *)

(** The built-in [float(v)]. *)
Definition py_float (v : pyval) : result PyFloat.float :=
  match v with
  | PNone | PList _ | PDict _ => inl TypeError
  | PBool b => inr (PyFloat.round_Z (if b then 1 else 0))
  | PInt z => PyFloat.of_int z
  | PFloat x => inr x
  | PStr s => PyFloat.of_str s
  end.

(** A bound of a price range: an [int], or [float('inf')]. *)
Inductive bound := BInt (z : Z) | BInf.

Definition price_mapping : list (str * (bound * bound)) :=
  [ (lit "under50", (BInt 0, BInt 50));
    (lit "50-150", (BInt 50, BInt 150));
    (lit "151-250", (BInt 151, BInt 250));
    (lit "over250", (BInt 251, BInf)) ].

Definition bound_le_float (b : bound) (x : PyFloat.float) : bool :=
  match b with
  | BInt z => PyFloat.int_le_float z x
  | BInf => PyFloat.float_le PyFloat.inf x
  end.

Definition float_le_bound (x : PyFloat.float) (b : bound) : bool :=
  match b with
  | BInt z => PyFloat.float_le_int x z
  | BInf => PyFloat.float_le x PyFloat.inf
  end.

(** [p.get('price', 0)] *)
Definition product_price (p : product) : pyval :=
  match price p with Some v => v | None => PInt 0 end.

(** The loop: [TypeError] and [ValueError] skip the product, any other
    exception leaves the function. *)
Fixpoint price_loop (min_price max_price : bound) (products filtered : list product)
  : result (list product) :=
  match products with
  | [] => inr filtered
  | p :: rest =>
      match py_float (product_price p) with
      | inr x =>
          if bound_le_float min_price x && float_le_bound x max_price
          then price_loop min_price max_price rest (filtered ++ [p])
          else price_loop min_price max_price rest filtered
      | inl TypeError | inl ValueError =>
          price_loop min_price max_price rest filtered
      | inl e => inl e
      end
  end.

Definition filter_products_by_price (products : list product) (price_range : str)
  : result (list product) :=
  match products, price_range with
  | [], _ | _, [] => inr []
  | _, _ =>
      let '(min_price, max_price) :=
        dict_get price_mapping price_range (BInt 0, BInf) in
      price_loop min_price max_price products []
  end.

End Catalog.

(* ================================================================== *)
(** * The product cache *)
(* ================================================================== *)

(** What [shopify_graphql_query] hands to [get_all_products]. *)
Record node := Node {
  node_handle : str;
  node_title : str;
  node_tags : option tag_field;
  (** the [price] of each entry of [variants.edges] *)
  node_variants : list pyval
}.

Inductive response :=
| Failed
    (** the request failed: [shopify_graphql_query] returned [None] or raised *)
| Malformed
    (** a reply without [data.products], or one on which the loop raises *)
| Edges (nodes : list node)
    (** [data.products.edges] *).

(** The body of [get_all_products] after the query. *)
Definition products_of_response (r : response) : list product :=
  match r with
  | Failed | Malformed => []
  | Edges nodes =>
      flat_map (fun n =>
                  match node_variants n with
                  | [] => []
                  | v :: _ =>
                      [Product (node_handle n) (node_title n) (node_tags n) (Some v)]
                  end) nodes
  end.

(** The attributes that [cache_products] keeps on the context object. *)
Record context := Ctx {
  cached_products : option (list product);
  cache_time : option PyFloat.float
}.

(** The world outside: [SHOPIFY_ENABLED], the successive readings of
    [time.time()] and the successive replies of the shop, with the number
    of readings and of calls of [get_all_products] made so far. *)
Record world := World {
  shopify_enabled : bool;
  clock : nat -> PyFloat.float;
  replies : nat -> response;
  ticks : nat;
  fetches : nat
}.

(** State and exceptions. *)
Definition M (A : Type) : Type := context * world -> result A * (context * world).

Definition ret {A} (a : A) : M A := fun s => (inr a, s).
Definition raise {A} (e : exn) : M A := fun s => (inl e, s).
Definition bind {A B} (m : M A) (k : A -> M B) : M B :=
  fun s => match m s with
           | (inr a, s') => k a s'
           | (inl e, s') => (inl e, s')
           end.

Declare Scope py_scope.
Delimit Scope py_scope with py.
Notation "x <- m ;; k" := (bind m (fun x => k))
  (at level 61, m at next level, right associativity) : py_scope.
Notation "m ;; k" := (bind m (fun _ => k))
  (at level 61, right associativity) : py_scope.
Open Scope py_scope.

Definition get_context : M context := fun s => (inr (fst s), s).

Definition set_cached_products (ps : list product) : M unit :=
  fun '(c, w) => (inr tt, (Ctx (Some ps) (cache_time c), w)).

Definition set_cache_time (t : PyFloat.float) : M unit :=
  fun '(c, w) => (inr tt, (Ctx (cached_products c) (Some t), w)).

(** [context.cache_time] *)
Definition get_cache_time : M PyFloat.float :=
  fun s => match cache_time (fst s) with
           | Some t => (inr t, s)
           | None => (inl AttributeError, s)
           end.

(** [context.cached_products] *)
Definition get_cached_products : M (list product) :=
  fun s => match cached_products (fst s) with
           | Some ps => (inr ps, s)
           | None => (inl AttributeError, s)
           end.

(** [time.time()] *)
Definition time_time : M PyFloat.float :=
  fun '(c, w) =>
    (inr (clock w (ticks w)),
     (c, World (shopify_enabled w) (clock w) (replies w) (S (ticks w)) (fetches w))).

(** [get_all_products()]: never raises; without [SHOPIFY_ENABLED], on a
    failed request and on a reply it cannot use it returns the empty list. *)
Definition get_all_products : M (list product) :=
  fun '(c, w) =>
    (inr (if shopify_enabled w then products_of_response (replies w (fetches w))
          else []),
     (c, World (shopify_enabled w) (clock w) (replies w) (ticks w) (S (fetches w)))).

(** [not hasattr(context, 'cached_products') or not context.cached_products] *)
Definition no_cached_products (c : context) : bool :=
  match cached_products c with
  | None | Some [] => true
  | Some (_ :: _) => false
  end.

Definition refresh : M unit :=
  ps <- get_all_products ;;
  set_cached_products ps ;;
  t <- time_time ;;
  set_cache_time t.

Definition cache_products : M (list product) :=
  c <- get_context ;;
  (if no_cached_products c then refresh
   else
     now <- time_time ;;
     t0 <- get_cache_time ;;
     if PyFloat.float_gt_int (PyFloat.float_sub now t0) 600 then refresh
     else ret tt) ;;
  get_cached_products.

(* ================================================================== *)
(** * Contracts in the words of the specification, and sample data *)
(* ================================================================== *)

(** The encoder in the words of its contract. *)
Definition encode_by_budget (prefix identifier : str) : str :=
  let budget := (64 - len prefix - 1)%Z in
  if (len identifier <=? budget)%Z
  then prefix ++ lit "_" ++ identifier
  else prefix ++ lit "_" ++ firstn 8 (Sha1.hexdigest (encode identifier)).

(** Thirty Arabic letters: a handle of 30 characters and 60 octets. *)
Definition arabic_handle : str := repeat 0x648%N 30.

Definition red_rose : product :=
  Product (lit "red-rose") (lit "Red Rose") (Some (TagList [lit "roses"]))
          (Some (PStr (lit "120.00"))).

(** A handle of 200 characters and a short handle with the same first
    eight hex digits of SHA-1, [7e2d4a4c]. *)
Definition long_handle : str :=
  concat (repeat (lit "rose-") 39) ++ lit "12720".

Definition long_rose : product :=
  Product long_handle (lit "Forty Roses") (Some (TagList [lit "roses"]))
          (Some (PStr (lit "400.00"))).

Definition bouquet_366 : product :=
  Product (lit "bouquet-366") (lit "Bouquet 366") (Some (TagList [lit "mixed"]))
          (Some (PStr (lit "90.00"))).

(** C9 as the specification words its second half: for an identifier [X]
    of length 200 the lookup of the token's payload over candidates that
    include [X]'s product returns [X]'s product. *)
Definition long_roundtrip_claim (X : str) (candidates : list product)
    (p : product) : Prop :=
  length X = 200%nat -> In p candidates -> handle p = X ->
  exists payload,
    callback_payload (safe_callback_data (lit "product") X) = Some payload
    /\ lookup_product payload candidates = Some p.

(** A product tagged with a flower that [TAG_MAPPINGS] does not list. *)
Definition peony : product :=
  Product (lit "pink-peonies") (lit "Pink Peonies")
          (Some (TagList [lit "Peonies"])) (Some (PStr (lit "180.00"))).

(** C5 as the specification words its second half: a filter key that is
    absent from the synonym table yields the empty list. *)
Definition absent_key_claim {U : Unicode} (products : list product)
    (filter_key : str) : Prop :=
  dict_has TAG_MAPPINGS filter_key = false ->
  filter_products_by_tag products filter_key = [].

(** Unicode tables that know no character beyond ASCII; any tables give
    the same results on the ASCII samples below. *)
Definition ascii_tables : Unicode :=
  {| unicode_lower := fun s => s; unicode_decimal := fun _ => None |}.

Definition is_finite (x : PyFloat.float) : bool :=
  match x with
  | S754_zero _ | S754_finite _ _ _ => true
  | S754_infinity _ | S754_nan => false
  end.

(** The test that the loop of [filter_products_by_price] applies. *)
Definition price_in {U : Unicode} (lo hi : bound) (p : product) : bool :=
  match py_float (product_price p) with
  | inr x => bound_le_float lo x && float_le_bound x hi
  | inl _ => false
  end.

(** C3 as the specification words it: the products kept are those whose
    price parses to a finite number inside the interval of the bucket. *)
Definition finite_price_claim {U : Unicode} (products : list product)
    (bucket : str) : Prop :=
  forall lo hi,
    In (bucket, (lo, hi)) price_mapping ->
    filter_products_by_price products bucket
    = inr (filter (fun p =>
                     match py_float (product_price p) with
                     | inr x => is_finite x && price_in lo hi p
                     | inl _ => false
                     end) products).

Definition priced (h price_text : string) : product :=
  Product (lit h) (lit h) (Some (TagList [])) (Some (PStr (lit price_text))).

(** A product whose price text reads as an infinity. *)
Definition priceless : product := priced "priceless" "inf".

(** The world after one reading of the clock. *)
Definition tick (w : world) : world :=
  World (shopify_enabled w) (clock w) (replies w) (S (ticks w)) (fetches w).

(** What the next call of [get_all_products] returns. *)
Definition fetched (w : world) : list product :=
  if shopify_enabled w then products_of_response (replies w (fetches w)) else [].

(** The catalog source gives no usable data at the next fetch. *)
Definition fetch_fails (w : world) : Prop :=
  shopify_enabled w = false
  \/ replies w (fetches w) = Failed
  \/ replies w (fetches w) = Malformed.

(** Seconds between the next reading of the clock and [t0], as the
    program computes them. *)
Definition elapsed (w : world) (t0 : PyFloat.float) : PyFloat.float :=
  PyFloat.float_sub (clock w (ticks w)) t0.

(** C1 as the specification words its first half: when the fetch fails
    and a snapshot that is merely stale exists, the get returns it. *)
Definition stale_fallback_claim (ps : list product) (t0 : PyFloat.float)
    (w : world) : Prop :=
  ps <> [] -> PyFloat.float_gt_int (elapsed w t0) 600 = true -> fetch_fails w ->
  fst (cache_products (Ctx (Some ps) (Some t0), w)) = inr ps.

(** C2 as the specification words its second half: a get with
    [t - t0 >= 600] makes exactly one refetch. *)
Definition refetch_from_600_claim (ps : list product) (t0 : PyFloat.float)
    (w : world) : Prop :=
  ps <> [] -> PyFloat.int_le_float 600 (elapsed w t0) = true ->
  fetches (snd (snd (cache_products (Ctx (Some ps) (Some t0), w))))
  = S (fetches w).

(** Clock readings, in seconds since the epoch. *)
Definition t_fetch : PyFloat.float := PyFloat.of_decimal false 170000000025 (-2).
Definition t_plus_599 : PyFloat.float := PyFloat.of_decimal false 170000059925 (-2).
Definition t_plus_600 : PyFloat.float := PyFloat.of_decimal false 170000060025 (-2).
Definition t_plus_601 : PyFloat.float := PyFloat.of_decimal false 170000060125 (-2).

(** A world whose clock shows [t] and whose shop answers [r]. *)
Definition world_at (t : PyFloat.float) (r : response) : world :=
  World true (fun _ => t) (fun _ => r) 0 0.

Definition rose_node : node :=
  Node (lit "white-rose") (lit "White Rose") (Some (TagList [lit "roses"]))
       [PStr (lit "75.00")].

(** Lower case with spaces, hyphens and apostrophes deleted. *)
Definition plain_form (tag : str) : str :=
  filter (fun c => negb (c =? 32)%N && negb (c =? 45)%N && negb (c =? 39)%N)
         (map ascii_lower tag).

(** The only white space of [s] is the space character. *)
Definition only_spaces (s : str) : Prop :=
  forall c, In c s -> isspace c = true -> c = 32%N.

Definition float_lt_int (x : PyFloat.float) (a : Z) : bool :=
  match PyFloat.Z_cmp_float a x with Some Gt => true | _ => false end.

(* ================================================================== *)
(** * Query strings and links *)
(* ================================================================== *)

(** [s.replace(c, rep)] for a one-character [c]. *)
Definition replace_char (c : N) (rep : str) (s : str) : str :=
  flat_map (fun x => if (x =? c)%N then rep else [x]) s.

Definition escape_shopify_query (query_str : str) : str :=
  let escaped := replace_char 92 [92; 92]%N query_str in
  replace_char 34 [92; 34]%N escaped.

(** [sep.join(parts)] *)
Fixpoint join (sep : str) (parts : list str) : str :=
  match parts with
  | [] => []
  | [p] => p
  | p :: rest => p ++ sep ++ join sep rest
  end.

(** Truth value of a Python object. *)
Definition truthy (v : pyval) : bool :=
  match v with
  | PNone => false
  | PBool b => b
  | PInt z => negb (z =? 0)%Z
  | PFloat (S754_zero _) => false
  | PFloat _ => true
  | PStr s => match s with [] => false | _ => true end
  | PList l => match l with [] => false | _ => true end
  | PDict d => match d with [] => false | _ => true end
  end.

(** [v == s] for a string [s]. *)
Definition eq_str (v : pyval) (s : str) : bool :=
  match v with
  | PStr t => str_eqb t s
  | _ => false
  end.

(** A node of the reply to the similar-products query; a field that is
    absent reads [PNone], as [.get] gives [None]. *)
Record similar_node := SimilarNode {
  sim_handle : str;
  sim_title : str;
  sim_url : pyval;
  sim_status : pyval;
  sim_published : pyval
}.

Inductive similar_response :=
| SimNone
    (** no data: the request failed or raised *)
| SimErrors
    (** a reply with [errors] *)
| SimMalformed
    (** a reply without [data.products], or one on which the loop raises *)
| SimEdges (nodes : list similar_node).

(** The tag query that [get_similar_products] sends. *)
Definition similar_tag_query (current_tags : list str) : str :=
  let escaped_tags := map escape_shopify_query current_tags in
  join (lit " OR ")
       (map (fun tag => lit "tag:" ++ [34%N] ++ tag ++ [34%N]) escaped_tags).

(** The test of the loop: not the current product, active, published and
    with a store URL. *)
Definition similar_ok (current_handle : str) (n : similar_node) : bool :=
  negb (str_eqb (sim_handle n) current_handle)
  && eq_str (sim_status n) (lit "ACTIVE")
  && truthy (sim_published n)
  && truthy (sim_url n).

Fixpoint similar_loop (current_handle : str) (limit : Z)
    (edges similar : list similar_node) : list similar_node :=
  match edges with
  | [] => similar
  | n :: rest =>
      if similar_ok current_handle n then
        let similar' := similar ++ [n] in
        if (Z.of_nat (length similar') >=? limit)%Z then similar'
        else similar_loop current_handle limit rest similar'
      else similar_loop current_handle limit rest similar
  end.

(** [get_similar_products(current_handle, current_tags, limit)], given the
    reply that the shop makes if it is asked. *)
Definition get_similar_products (current_handle : str) (current_tags : list str)
    (limit : Z) (reply : similar_response) : list similar_node :=
  match current_tags with
  | [] => []
  | _ =>
      match reply with
      | SimNone | SimErrors | SimMalformed => []
      | SimEdges nodes => similar_loop current_handle limit nodes []
      end
  end.

(** [get_whatsapp_url(product_title)], with [WHATSAPP_NUMBER] as the
    f-string renders it. *)
Definition get_whatsapp_url (whatsapp_number : str) (product_title : option str)
  : str :=
  let base_url := lit "https://wa.me/" ++ whatsapp_number ++ lit "?text=" in
  let message := lit "Hello%20Florist!%20I'm%20interested%20in%20" in
  let message :=
    match product_title with
    | None | Some [] => message
    | Some title =>
        let clean_title :=
          replace_char 38 (lit "%26") (replace_char 32 (lit "%20") title) in
        message ++ lit "the%20'" ++ clean_title ++ lit "'%20bouquet.%20"
    end in
  let message := message ++ lit "Could%20you%20tell%20me%20more%20about%20it?" in
  base_url ++ message.

(** A reader of escaped text: a backslash stands for the character after
    it. *)
Fixpoint unescape (s : str) : str :=
  match s with
  | [] => []
  | c :: r =>
      if (c =? 92)%N then
        match r with
        | d :: r' => d :: unescape r'
        | [] => [c]
        end
      else c :: unescape r
  end.

(* ================================================================== *)
(** * The menus: [category_menu], [apply_filter], [show_all_products] *)
(* ================================================================== *)

(** [s.split(c, maxsplit)] for a one-character separator. *)
Fixpoint splitn (c : N) (maxsplit : nat) (s : str) {struct s} : list str :=
  match s with
  | [] => [[]]
  | x :: s' =>
      match maxsplit with
      | O => [s]
      | S m =>
          if (x =? c)%N then [] :: splitn c m s'
          else match splitn c maxsplit s' with
               | f :: fs => (x :: f) :: fs
               | [] => [[x]]
               end
      end
  end.

(** Decimal digits of a natural number. *)
Fixpoint uint_digits (d : Decimal.uint) : str :=
  match d with
  | Decimal.Nil => []
  | Decimal.D0 d => 48%N :: uint_digits d
  | Decimal.D1 d => 49%N :: uint_digits d
  | Decimal.D2 d => 50%N :: uint_digits d
  | Decimal.D3 d => 51%N :: uint_digits d
  | Decimal.D4 d => 52%N :: uint_digits d
  | Decimal.D5 d => 53%N :: uint_digits d
  | Decimal.D6 d => 54%N :: uint_digits d
  | Decimal.D7 d => 55%N :: uint_digits d
  | Decimal.D8 d => 56%N :: uint_digits d
  | Decimal.D9 d => 57%N :: uint_digits d
  end.

Definition decimal (n : N) : str :=
  match uint_digits (N.to_uint n) with
  | [] => lit "0"
  | s => s
  end.

(** The integer nearest to [num / den], ties to even ([0 <= num], [0 < den]). *)
Definition round_half_even (num den : Z) : Z :=
  let q := (num / den)%Z in
  match (2 * (num mod den) ?= den)%Z with
  | Lt => q
  | Gt => (q + 1)%Z
  | Eq => if Z.even q then q else (q + 1)%Z
  end.

(** [f"{x:.2f}"]: the decimal with two digits after the point that is
    nearest to the exact value of the float. *)
Definition format_2f (x : PyFloat.float) : str :=
  match x with
  | S754_nan => lit "nan"
  | S754_infinity s => (if s then lit "-" else []) ++ lit "inf"
  | S754_zero s => (if s then lit "-" else []) ++ lit "0.00"
  | S754_finite s m e =>
      let hundredths :=
        Z.to_N (if (0 <=? e)%Z then Z.pos m * 2 ^ e * 100
                else round_half_even (Z.pos m * 100) (2 ^ (- e)))%Z in
      (if s then lit "-" else [])
      ++ decimal (hundredths / 100) ++ lit "."
      ++ [48 + (hundredths mod 100) / 10; 48 + hundredths mod 10]%N
  end.

Inductive action :=
| Callback (data : str)
| Url (url : str).

(** [InlineKeyboardButton(label, callback_data=...)] or [(label, url=...)] *)
Record button := Button { label : str; press : action }.

(** What a handler shows: the text and the rows of buttons that it passes
    to [edit_message_text]. *)
Record screen := Screen { text : str; keyboard : list (list button) }.

(** The [menus] of [category_menu]: title and options by category. *)
Definition menus : list (str * (str * list (str * str))) :=
  [ (lit "price",
     ([0x1F4B0]%N ++ lit " Select Price Range",
      [ (lit "Under AED50", lit "under50");
        (lit "AED50-150", lit "50-150");
        (lit "AED151-250", lit "151-250");
        (lit "Over AED250", lit "over250") ]));
    (lit "occasion",
     ([0x1F389]%N ++ lit " Select Occasion",
      [ (lit "Anniversary", lit "anniversary");
        (lit "Valentine", lit "valentine");
        (lit "Romantic", lit "romantic");
        (lit "Get Well Soon", lit "getwell");
        (lit "Wedding", lit "wedding");
        (lit "Happy Birthday", lit "birthday");
        (lit "Father's Day", lit "fathersday") ]));
    (lit "flowers",
     ([0x1F337]%N ++ lit " Select Flower Type",
      [ (lit "Roses", lit "roses");
        (lit "Lilies", lit "lilies");
        (lit "Tulips", lit "tulips");
        (lit "Orchids", lit "orchids");
        (lit "Sunflowers", lit "sunflowers");
        (lit "Mixed Flowers", lit "mixed") ])) ].

Fixpoint dict_find {V : Type} (d : list (str * V)) (k : str) : option V :=
  match d with
  | [] => None
  | (k', v) :: d' => if str_eqb k' k then Some v else dict_find d' k
  end.

(** The screen of [category_menu] for the callback data [data]; [None]
    stands for the [IndexError] of [query.data.split("_")[1]] on data
    without an underscore. *)
Definition category_menu_screen (data : str) : option screen :=
  match split 95 data with
  | _ :: category_type :: _ =>
      Some
        match dict_find menus category_type with
        | None =>
            Screen ([0x26A0; 0xFE0F]%N ++ lit " Invalid category selection") []
        | Some (menu_title, options) =>
            Screen menu_title
              (map (fun o =>
                      [Button (fst o)
                              (Callback (lit "filter_" ++ category_type
                                         ++ lit "_" ++ snd o))])
                   options
               ++ [[Button ([0x1F519]%N ++ lit " Back to Main Menu")
                           (Callback (lit "back_to_main"))]])
        end
  | _ => None
  end.

Definition filter_labels : list (str * str) :=
  [ (lit "under50", lit "Under AED50");
    (lit "50-150", lit "AED50-150");
    (lit "151-250", lit "AED151-250");
    (lit "over250", lit "Over AED250");
    (lit "anniversary", lit "Anniversary");
    (lit "valentine", lit "Valentine's Day");
    (lit "romantic", lit "Romantic");
    (lit "getwell", lit "Get Well Soon");
    (lit "wedding", lit "Wedding");
    (lit "birthday", lit "Birthday");
    (lit "fathersday", lit "Father's Day");
    (lit "roses", lit "Roses");
    (lit "lilies", lit "Lilies");
    (lit "tulips", lit "Tulips");
    (lit "orchids", lit "Orchids");
    (lit "sunflowers", lit "Sunflowers");
    (lit "mixed", lit "Mixed Flowers") ].

(** [title[:25] + "..." if len(title) > 25 else title] *)
Definition short_title (t : str) : str :=
  if (len t >? 25)%Z then firstn 25 t ++ lit "..." else t.

Section Menus.
Context {U : Unicode}.

(** The first loop of [apply_filter]: it formats a label for every
    product, without guarding [float], and its keyboard is thrown away. *)
Fixpoint unguarded_labels (products : list product) : result (list str) :=
  match products with
  | [] => inr []
  | p :: rest =>
      match py_float (product_price p) with
      | inl e => inl e
      | inr x =>
          match unguarded_labels rest with
          | inl e => inl e
          | inr ls => inr ((firstn 25 (title p) ++ lit " - AED" ++ format_2f x) :: ls)
          end
      end
  end.

(** The button of one product, as the second loop of [apply_filter] and
    the loop of [show_all_products] make it: any exception of [float]
    leaves the bare title as text. *)
Definition product_button (p : product) : button :=
  let callback_data := safe_callback_data (lit "product") (handle p) in
  let t := short_title (title p) in
  let btn_text :=
    match py_float (product_price p) with
    | inr x => t ++ lit " - AED" ++ format_2f x
    | inl _ => t
    end in
  Button btn_text (Callback callback_data).

(** [apply_filter] on the cached [products] and the callback data. *)
Definition apply_filter_screen (products : list product) (data : str)
  : result screen :=
  match splitn 95 2 data with
  | [_; category_type; filter_value] =>
      let filter_label := dict_get filter_labels filter_value filter_value in
      match (if str_eqb category_type (lit "price")
             then filter_products_by_price products filter_value
             else inr (filter_products_by_tag products filter_value)) with
      | inl e => inl e
      | inr [] =>
          inr (Screen ([0x274C]%N ++ lit " No bouquets found in '"
                       ++ filter_label ++ lit "' category" ++ [0xA; 0xA]%N
                       ++ lit "We're adding new arrangements daily! Please check back soon or browse other categories.")
                      [[Button ([0x1F519]%N ++ lit " Back to Categories")
                               (Callback (lit "back_to_main"))]])
      | inr filtered_products =>
          match unguarded_labels filtered_products with
          | inl e => inl e
          | inr _ =>
              inr (Screen ([0x1F490]%N ++ lit " Bouquets in '" ++ filter_label
                           ++ lit "' category:")
                          (map (fun p => [product_button p]) filtered_products))
          end
      end
  | _ => inr (Screen ([0x26A0; 0xFE0F]%N ++ lit " Invalid filter request") [])
  end.

(** [show_all_products] on the cached [products]. *)
Definition show_all_products_screen (products : list product) : screen :=
  match products with
  | [] => Screen ([0x274C]%N ++ lit " Currently no products available.") []
  | _ =>
      Screen ([0x2728]%N ++ lit " All Available Bouquets " ++ [0x2728]%N)
             (map (fun p => [product_button p]) products
              ++ [[Button ([0x1F519]%N ++ lit " Back to Main Menu")
                          (Callback (lit "back_to_main"))]])
  end.

(** The handlers proper: they read the cache first. *)
Definition apply_filter (data : str) : M screen :=
  products <- cache_products ;;
  (fun s => (apply_filter_screen products data, s)).

Definition show_all_products : M screen :=
  products <- cache_products ;;
  ret (show_all_products_screen products).

End Menus.

(* ================================================================== *)
(** * The callback handlers of [main] *)
(* ================================================================== *)

Inductive handler :=
| category_menu_handler | apply_filter_handler | back_to_main_handler
| show_all_products_handler | back_to_menu_handler | faq_main_handler
| faq_detail_handler | product_detail_handler.

(** The two shapes of pattern in [main]: [^text] and [^text$]. *)
Inductive pattern :=
| StartsWith (s : str)
| Whole (s : str).

Fixpoint starts_with (s data : str) : bool :=
  match s, data with
  | [], _ => true
  | c :: s', d :: data' => (c =? d)%N && starts_with s' data'
  | _ :: _, [] => false
  end.

(** [re.match(pattern, data)] succeeds; [$] also matches before a final
    newline. *)
Definition pattern_matches (p : pattern) (data : str) : bool :=
  match p with
  | StartsWith s => starts_with s data
  | Whole s => str_eqb data s || str_eqb data (s ++ [10%N])
  end.

(** The callback handlers in the order in which [main] adds them. *)
Definition callback_handlers (SHOPIFY_ENABLED : bool)
  : list (pattern * handler) :=
  [ (StartsWith (lit "category_"), category_menu_handler);
    (StartsWith (lit "filter_"), apply_filter_handler);
    (Whole (lit "back_to_main"), back_to_main_handler);
    (Whole (lit "show_all"), show_all_products_handler);
    (Whole (lit "back_to_menu"), back_to_menu_handler);
    (Whole (lit "faq_main"), faq_main_handler);
    (StartsWith (lit "faq_"), faq_detail_handler) ]
  ++ (if SHOPIFY_ENABLED
      then [ (StartsWith (lit "product_"), product_detail_handler);
             (Whole (lit "show_all"), show_all_products_handler) ]
      else []).

(** The handler that takes a callback: the first whose pattern matches. *)
Definition route (SHOPIFY_ENABLED : bool) (data : str) : option handler :=
  option_map snd
    (find (fun ph => pattern_matches (fst ph) data)
          (callback_handlers SHOPIFY_ENABLED)).

(* ================================================================== *)
(** * The main menu and the FAQ *)
(* ================================================================== *)

Section Env.

(** [WHATSAPP_NUMBER] and [INSTAGRAM_USERNAME], as an f-string renders
    them. *)
Variables WHATSAPP_NUMBER INSTAGRAM_USERNAME : str.

(** [FAQ_DATA]: question and answer by key. *)
Definition FAQ_DATA : list (str * (str * str)) :=
  [ (lit "delivery",
     ([0x1F69A]%N ++ lit " Delivery Information",
      [0x1F33A]%N ++ lit " *Delivery Details:*" ++ [0xA; 0xA; 0x2022]%N
      ++ lit " We offer same-day delivery for orders" ++ [0xA; 0x2022]%N
      ++ lit " Delivery areas: Abu Dhabi" ++ [0xA; 0x2022]%N
      ++ lit " Delivery fee: AED 20 (free for orders over AED 150)"
      ++ [0xA; 0x2022]%N
      ++ lit " Delivery hours: 10am - 10pm" ++ [0xA; 0xA]%N
      ++ lit "We carefully package all bouquets to ensure they arrive fresh and beautiful!"));
    (lit "payment",
     ([0x1F4B3]%N ++ lit " Payment Methods",
      [0x1F4B3]%N ++ lit " *Payment Options:*" ++ [0xA; 0xA]%N
      ++ lit "We accept:" ++ [0xA; 0x2022]%N
      ++ lit " Cash on delivery" ++ [0xA; 0x2022]%N
      ++ lit " Credit/Debit Cards (Visa, MasterCard)" ++ [0xA; 0x2022]%N
      ++ lit " Apple Pay & Google Pay" ++ [0xA; 0x2022]%N
      ++ lit " Bank transfer (for advance orders)" ++ [0xA; 0xA]%N
      ++ lit "All online payments are secured with SSL encryption."));
    (lit "care",
     ([0x1F33C]%N ++ lit " Flower Care Tips",
      [0x1F4A7]%N ++ lit " *Keeping Flowers Fresh:*" ++ [0xA; 0xA]%N
      ++ lit "1. Trim stems at 45" ++ [0xB0]%N
      ++ lit " angle before placing in water" ++ [0xA]%N
      ++ lit "2. Use clean vase and fresh water daily" ++ [0xA]%N
      ++ lit "3. Add flower food if provided" ++ [0xA]%N
      ++ lit "4. Keep away from direct sunlight and heat" ++ [0xA]%N
      ++ lit "5. Remove any submerged leaves" ++ [0xA; 0xA]%N
      ++ lit "Follow these tips to enjoy your flowers for 7-10 days!"));
    (lit "contact",
     ([0x1F4DE]%N ++ lit " Contact Information",
      [0x1F4F1]%N ++ lit " *Reach Us Anytime:*" ++ [0xA; 0xA; 0x2022]%N
      ++ lit " WhatsApp: " ++ WHATSAPP_NUMBER ++ [0xA; 0x2022]%N
      ++ lit " Phone: " ++ WHATSAPP_NUMBER ++ [0xA; 0x2022]%N
      ++ lit " Email: contact@prostoflowers.com" ++ [0xA; 0x2022]%N
      ++ lit " Store: Al Rutab St, Al Nahyan, Abu Dhabi - UAE"
      ++ [0xA; 0x2022]%N
      ++ lit "https://maps.app.goo.gl/sz2fChViqh7q2zTAA " ++ [0xA; 0xA]%N
      ++ lit "We're available 10 AM - 10 PM daily!")) ].

Definition get_instagram_url : str :=
  lit "https://www.instagram.com/" ++ INSTAGRAM_USERNAME ++ lit "/".

(** What [start] replies to the user called [first_name]. *)
Definition start_screen (first_name : str) : screen :=
  Screen ([0x1F338]%N ++ lit " Welcome to Prosto Flowers, " ++ first_name
          ++ lit "! " ++ [0x1F338; 0xA; 0xA]%N
          ++ lit "I'm your floral assistant! How can I help you today?"
          ++ [0xA; 0xA]%N ++ lit "Browse our collection by category:")
    [ [Button ([0x1F4B0]%N ++ lit " Filter by Price")
              (Callback (lit "category_price"))];
      [Button ([0x1F389]%N ++ lit " Filter by Occasion")
              (Callback (lit "category_occasion"))];
      [Button ([0x1F337]%N ++ lit " Filter by Flower Type")
              (Callback (lit "category_flowers"))];
      [Button ([0x1F490]%N ++ lit " Show All Bouquets")
              (Callback (lit "show_all"))];
      [Button ([0x1F4F8]%N ++ lit " Instagram") (Url get_instagram_url);
       Button ([0x1F4AC]%N ++ lit " WhatsApp")
              (Url (get_whatsapp_url WHATSAPP_NUMBER None))];
      [Button ([0x2753]%N ++ lit " FAQ") (Callback (lit "faq_main"))] ].

(** What [back_to_main] shows. *)
Definition back_to_main_screen (first_name : str) : screen :=
  Screen ([0x1F338]%N ++ lit " Welcome back, " ++ first_name
          ++ lit "! " ++ [0x1F338; 0xA; 0xA]%N
          ++ lit "How can I help you today?"
          ++ [0xA; 0xA]%N ++ lit "Browse our collection by category:")
    [ [Button ([0x1F4B0]%N ++ lit " Filter by Price")
              (Callback (lit "category_price"))];
      [Button ([0x1F389]%N ++ lit " Filter by Occasion")
              (Callback (lit "category_occasion"))];
      [Button ([0x1F337]%N ++ lit " Filter by Flower Type")
              (Callback (lit "category_flowers"))];
      [Button ([0x1F490]%N ++ lit " Show All Bouquets")
              (Callback (lit "show_all"))];
      [Button ([0x1F4F8]%N ++ lit " Instagram") (Url get_instagram_url);
       Button ([0x1F4AC]%N ++ lit " WhatsApp")
              (Url (get_whatsapp_url WHATSAPP_NUMBER None))] ].

(** What [faq_main] shows: one button for each entry of [FAQ_DATA]. *)
Definition faq_main_screen : screen :=
  Screen ([0x2753]%N ++ lit " *Frequently Asked Questions* "
          ++ [0x2753; 0xA; 0xA]%N ++ lit "Select a topic:")
    (map (fun kd => [Button (fst (snd kd)) (Callback (lit "faq_" ++ fst kd))])
         FAQ_DATA
     ++ [[Button ([0x1F519]%N ++ lit " Back to Main Menu")
                 (Callback (lit "back_to_main"))]]).

(** What [faq_detail] shows for the callback data [data]; [None] stands
    for the [IndexError] of [query.data.split("_")[1]]. *)
Definition faq_detail_screen (data : str) : option screen :=
  match split 95 data with
  | _ :: faq_key :: _ =>
      Some
        match dict_find FAQ_DATA faq_key with
        | None => Screen ([0x26A0; 0xFE0F]%N ++ lit " Question not found") []
        | Some (question, answer) =>
            Screen (lit "*" ++ question ++ lit "*" ++ [0xA; 0xA]%N ++ answer)
              [ [Button ([0x1F519]%N ++ lit " Back to FAQ")
                        (Callback (lit "faq_main"))];
                [Button ([0x1F4AC]%N ++ lit " Contact Us")
                        (Url (get_whatsapp_url WHATSAPP_NUMBER None))] ]
        end
  | _ => None
  end.

End Env.

(* ================================================================== *)
(** * The product lists of [products] and [back_to_menu] *)
(* ================================================================== *)

(** A node of the reply to [get_shopify_products], with the fields that
    the lists read; a field that is absent reads [PNone], as [.get] gives
    [None]. *)
Record listed_node := ListedNode {
  listed_handle : str;
  listed_title : str;
  listed_url : pyval;
  listed_status : pyval
}.

Inductive listing_response :=
| ListFailed
    (** no data, a reply without [data.products], or one on which the loop
        raises *)
| ListEdges (nodes : list listed_node).

(** The loop of [get_shopify_products]: only active products with a store
    URL. *)
Fixpoint valid_loop (edges valid_products : list listed_node)
  : list listed_node :=
  match edges with
  | [] => valid_products
  | product :: rest =>
      if eq_str (listed_status product) (lit "ACTIVE")
         && truthy (listed_url product)
      then valid_loop rest (valid_products ++ [product])
      else valid_loop rest valid_products
  end.

(** The test of that loop, for the facts about it. *)
Definition listed_ok (n : listed_node) : bool :=
  eq_str (listed_status n) (lit "ACTIVE") && truthy (listed_url n).

(** [get_shopify_products()], given the reply that the shop makes. *)
Definition get_shopify_products (SHOPIFY_ENABLED : bool)
    (reply : listing_response) : list listed_node :=
  if negb SHOPIFY_ENABLED then []
  else match reply with
       | ListFailed => []
       | ListEdges nodes => valid_loop nodes []
       end.

(** The button that both lists make of a product: the handle goes into
    the callback data as it is. *)
Definition listed_button (product : listed_node) : button :=
  Button (listed_title product)
         (Callback (lit "product_" ++ listed_handle product)).

(** The loop of [products]: the keyboard and [available_count]. *)
Fixpoint products_loop (products : list listed_node)
    (keyboard : list (list button)) (available_count : Z)
  : list (list button) * Z :=
  match products with
  | [] => (keyboard, available_count)
  | product :: rest =>
      if negb (truthy (listed_url product))
         || negb (eq_str (listed_status product) (lit "ACTIVE"))
      then products_loop rest keyboard available_count
      else products_loop rest (keyboard ++ [[listed_button product]])
                         (available_count + 1)
  end.

(** What [products] replies. *)
Definition products_screen (SHOPIFY_ENABLED : bool) (reply : listing_response)
  : screen :=
  if negb SHOPIFY_ENABLED then
    Screen ([0x26A0; 0xFE0F]%N
            ++ lit " Product browsing is currently unavailable. Please try again later.")
           []
  else
    match get_shopify_products SHOPIFY_ENABLED reply with
    | [] =>
        Screen ([0x274C]%N
                ++ lit " Currently no products available. Please check back later!")
               []
    | products =>
        let (keyboard, available_count) := products_loop products [] 0 in
        if (available_count =? 0)%Z then
          Screen ([0x274C]%N
                  ++ lit " No available products found. Please check back later!")
                 []
        else
          Screen ([0x2728]%N ++ lit " Our Available Bouquets " ++ [0x2728]%N)
                 keyboard
    end.

(** The loop of [back_to_menu]. *)
Fixpoint back_to_menu_loop (products_list : list listed_node)
    (keyboard : list (list button)) : list (list button) :=
  match products_list with
  | [] => keyboard
  | product :: rest =>
      if negb (truthy (listed_url product))
      then back_to_menu_loop rest keyboard
      else back_to_menu_loop rest (keyboard ++ [[listed_button product]])
  end.

(** The message that [back_to_menu] sends, once the old one is out of
    the way. *)
Definition back_to_menu_screen (SHOPIFY_ENABLED : bool)
    (reply : listing_response) : screen :=
  if negb SHOPIFY_ENABLED then
    Screen ([0x26A0; 0xFE0F]%N
            ++ lit " Product browsing is currently unavailable.") []
  else
    match get_shopify_products SHOPIFY_ENABLED reply with
    | [] => Screen ([0x274C]%N ++ lit " Currently no products available.") []
    | products_list =>
        match back_to_menu_loop products_list [] with
        | [] => Screen ([0x274C]%N ++ lit " No available products found.") []
        | keyboard =>
            Screen ([0x2728]%N ++ lit " Our Available Bouquets " ++ [0x2728]%N)
                   (keyboard
                    ++ [[Button ([0x1F3E0]%N ++ lit " Main Menu")
                                (Callback (lit "back_to_main"));
                         Button ([0x1F504]%N ++ lit " Refresh")
                                (Callback (lit "back_to_menu"))]])
        end
    end.

(* ================================================================== *)
(** * [product_detail] *)
(* ================================================================== *)

(** The node of the reply to [get_shopify_product_with_tags], with the
    fields that [product_detail] indexes. *)
Record detail_node := DetailNode {
  detail_title : str;
  detail_variants : list pyval
    (** the prices of [variants.edges] *)
}.

Inductive detail_response :=
| DetFailed
    (** no data, a reply with [errors], or one on which the function
        raises *)
| DetEdges (nodes : list detail_node).

(** [get_shopify_product_with_tags(handle)], given the reply that the
    shop makes to the query for [handle]. *)
Definition get_shopify_product_with_tags (SHOPIFY_ENABLED : bool)
    (reply : detail_response) : option detail_node :=
  if negb SHOPIFY_ENABLED then None
  else match reply with
       | DetEdges (product :: _) => Some product
       | _ => None
       end.

(** How [product_detail] ends, up to the message it goes on to send. *)
Inductive detail_outcome :=
| DetailsUnavailable
    (** the alert without the shop *)
| InvalidRequest
    (** "Invalid product request" *)
| NotInShop
    (** "Product not found in our system", after the query *)
| Raises
    (** an index is out of range or an unpacking fails: the exception
        leaves the handler *)
| NotInCache
    (** "Product not found in our system", after the lookup *)
| Details (shop_title : str) (shop_price : pyval) (cached_product : product)
    (** the details: title and price of the shop's node, links of the
        cached product *).

(** ['_' in s] *)
Definition has_underscore (s : str) : bool := existsb (N.eqb 95) s.

(** [product_detail] on the callback data [data]; [shop] is the reply of
    the shop to the query for a handle and [cached] is what
    [cache_products] returns. *)
Definition product_detail_outcome (SHOPIFY_ENABLED : bool)
    (shop : str -> detail_response) (cached : list product) (data : str)
  : detail_outcome :=
  if negb SHOPIFY_ENABLED then DetailsUnavailable
  else if negb (has_underscore data) then InvalidRequest
  else
    match split1 95 data with
    | _ :: handle :: _ =>
        match get_shopify_product_with_tags SHOPIFY_ENABLED (shop handle) with
        | None => NotInShop
        | Some node =>
            match detail_variants node with
            | [] => Raises
            | shop_price :: _ =>
                if negb (has_underscore data) then InvalidRequest
                else
                  match callback_payload data with
                  | None => Raises
                  | Some payload =>
                      match lookup_product payload cached with
                      | None => NotInCache
                      | Some cached_product =>
                          Details (detail_title node) shop_price cached_product
                      end
                  end
            end
        end
    | _ => Raises
    end.

(* ================================================================== *)
(** * Facts about strings and digests *)
(* ================================================================== *)

Lemma str_eqb_eq (a b : str) : str_eqb a b = true <-> a = b.
Proof.
  revert b; induction a as [|x a IH]; intros [|y b]; simpl;
    try (split; [discriminate | discriminate]); try tauto.
  rewrite andb_true_iff, N.eqb_eq, IH.
  split; [intros [-> ->]; reflexivity | intros H; injection H; auto].
Qed.

Lemma str_eqb_refl (a : str) : str_eqb a a = true.
Proof. apply str_eqb_eq; reflexivity. Qed.

Lemma str_eqb_neq (a b : str) : str_eqb a b = false <-> a <> b.
Proof.
  rewrite <- str_eqb_eq. destruct (str_eqb a b); split; congruence.
Qed.

Lemma str_in_In (x : str) (l : list str) : str_in x l = true <-> In x l.
Proof.
  unfold str_in. rewrite existsb_exists. split.
  - intros (y & Hy & E). apply str_eqb_eq in E. subst; assumption.
  - intros H. exists x. split; [assumption | apply str_eqb_refl].
Qed.

Lemma len_app (a b : str) : len (a ++ b) = (len a + len b)%Z.
Proof. unfold len. rewrite length_app. lia. Qed.

Lemma nibble_bound (x : N) : (N.land x 15 < 16)%N.
Proof.
  change 15%N with (N.ones 4). rewrite N.land_ones.
  apply N.mod_lt. discriminate.
Qed.

Lemma hexdigit_is_hex (n : N) : (n < 16)%N -> Sha1.is_hex (Sha1.hexdigit n) = true.
Proof.
  intros H. unfold Sha1.is_hex, Sha1.hexdigit.
  destruct (n <? 10)%N eqn:E;
    [apply N.ltb_lt in E | apply N.ltb_ge in E];
    rewrite orb_true_iff, !andb_true_iff, !N.leb_le; lia.
Qed.

Lemma hex8_is_hex (w : N) : forallb Sha1.is_hex (Sha1.hex8 w) = true.
Proof.
  unfold Sha1.hex8. cbv [map forallb].
  rewrite !hexdigit_is_hex by apply nibble_bound. reflexivity.
Qed.

(** The first eight digits of the hex digest are those of the first word. *)
Lemma hash_id_hex8 (data : str) :
  hash_id data = Sha1.hex8 (Sha1.h0 (Sha1.sha1 (encode data))).
Proof.
  unfold hash_id, Sha1.hexdigest.
  generalize (Sha1.sha1 (encode data)). intros s.
  cbv [Sha1.hex8 map app firstn]. reflexivity.
Qed.

Lemma hash_id_length (data : str) : length (hash_id data) = 8%nat.
Proof.
  rewrite hash_id_hex8. generalize (Sha1.h0 (Sha1.sha1 (encode data))).
  intros w. unfold Sha1.hex8. rewrite length_map. reflexivity.
Qed.

Lemma hash_id_is_hex (data : str) : forallb Sha1.is_hex (hash_id data) = true.
Proof. rewrite hash_id_hex8. apply hex8_is_hex. Qed.

Lemma hexdigest_length (m : bytes) : length (Sha1.hexdigest m) = 40%nat.
Proof.
  unfold Sha1.hexdigest. generalize (Sha1.sha1 m). intros s.
  unfold Sha1.hex8. rewrite !length_app, !length_map. reflexivity.
Qed.

Lemma find_first {A} (f : A -> bool) (before : list A) (p : A) (after : list A) :
  f p = true -> (forall q, In q before -> f q = false) ->
  find f (before ++ p :: after) = Some p.
Proof.
  intros Hp. induction before as [|q before IH]; intros Hb; simpl.
  - rewrite Hp. reflexivity.
  - rewrite (Hb q) by (left; reflexivity).
    apply IH. intros r Hr. apply Hb. right; assumption.
Qed.

Lemma find_nowhere {A} (f : A -> bool) (l : list A) :
  (forall q, In q l -> f q = false) -> find f l = None.
Proof.
  induction l as [|q l IH]; intros H; simpl; [reflexivity|].
  rewrite (H q) by (left; reflexivity).
  apply IH. intros r Hr. apply H. right; assumption.
Qed.

(** The payload of a token made with the prefix ["product"]. *)
Lemma callback_payload_product (d : str) :
  callback_payload (lit "product" ++ lit "_" ++ d) = Some d.
Proof. reflexivity. Qed.

(** UTF-8 leaves ASCII text as it is. *)
Lemma encode_ascii (s : str) : is_ascii s = true -> encode s = s.
Proof.
  induction s as [|c s IH]; [reflexivity|].
  unfold is_ascii, encode. cbn [forallb flat_map].
  rewrite andb_true_iff. intros [Hc Hs].
  unfold utf8_char. change (c <? 0x80)%N with (c <? 128)%N. rewrite Hc.
  cbn [app]. f_equal. apply IH. exact Hs.
Qed.

Lemma is_hex_ascii (s : str) : forallb Sha1.is_hex s = true -> is_ascii s = true.
Proof.
  unfold is_ascii. rewrite !forallb_forall. intros H c Hc.
  specialize (H c Hc). unfold Sha1.is_hex in H.
  rewrite orb_true_iff, !andb_true_iff, !N.leb_le in H.
  apply N.ltb_lt. lia.
Qed.

Lemma is_ascii_app (a b : str) : is_ascii (a ++ b) = is_ascii a && is_ascii b.
Proof. apply forallb_app. Qed.

(** [hashlib.sha1] on the test vectors of FIPS 180. *)
Example sha1_abc :
  Sha1.hexdigest (encode (lit "abc"))
  = lit "a9993e364706816aba3e25717850c26c9cd0d89d".
Proof. vm_compute. reflexivity. Qed.

Example sha1_empty :
  Sha1.hexdigest [] = lit "da39a3ee5e6b4b0d3255bfef95601890afd80709".
Proof. vm_compute. reflexivity. Qed.

Example sha1_two_blocks :
  Sha1.hexdigest
    (encode (lit "abcdbcdecdefdefgefghfghighijhijkijkljklmklmnlmnomnopnopq"))
  = lit "84983e441c3bd26ebaae4aa1f95129e5e54670f1".
Proof. vm_compute. reflexivity. Qed.

(* ================================================================== *)
(** * Callback tokens: [safe_callback_data] and the lookup *)
(* ================================================================== *)

(** C6: with [budget = 64 - len(prefix) - 1], [safe_callback_data] returns
    [prefix + "_" + identifier] verbatim when [len(identifier) <= budget]
    and [prefix + "_" +] the first 8 hex characters of the SHA-1 digest of
    the identifier otherwise; it is a function of its two arguments, so
    equal arguments give equal tokens. *)
Theorem safe_callback_data_by_budget :
  forall prefix identifier : str,
    let budget := (64 - len prefix - 1)%Z in
    safe_callback_data prefix identifier = encode_by_budget prefix identifier
    /\ ((len identifier <= budget)%Z ->
        safe_callback_data prefix identifier = prefix ++ lit "_" ++ identifier)
    /\ ((budget < len identifier)%Z ->
        safe_callback_data prefix identifier
        = prefix ++ lit "_" ++ firstn 8 (Sha1.hexdigest (encode identifier)))
    /\ (forall prefix' identifier',
          prefix' = prefix -> identifier' = identifier ->
          safe_callback_data prefix' identifier'
          = safe_callback_data prefix identifier).
Proof.
  intros prefix identifier budget. repeat split.
  - intros H. unfold safe_callback_data. fold budget.
    apply Z.leb_le in H. rewrite H. reflexivity.
  - intros H. unfold safe_callback_data. fold budget.
    apply Z.leb_gt in H. rewrite H. reflexivity.
  - intros prefix' identifier' -> ->. reflexivity.
Qed.

(** C7 (the code exceeds the limit): a handle of 30 two-octet characters
    is within the character budget of 56, is embedded verbatim, and the
    token ["product_" + handle] is 68 octets long. *)
Theorem safe_callback_data_over_64_bytes :
  (len arabic_handle <=? 64 - len (lit "product") - 1)%Z = true
  /\ safe_callback_data (lit "product") arabic_handle
     = lit "product_" ++ arabic_handle
  /\ length (encode (safe_callback_data (lit "product") arabic_handle)) = 68%nat.
Proof. vm_compute. repeat split. Qed.

(** A prefix of more than 55 characters overflows the limit as well: the
    digest branch appends 9 characters whatever the budget. *)
Example safe_callback_data_long_prefix :
  length (encode (safe_callback_data (repeat 97%N 60) (lit "short-handle")))
  = 69%nat.
Proof. vm_compute. reflexivity. Qed.

(** Within ASCII and with a prefix of at most 55 characters the token does
    fit in 64 octets. *)
Lemma safe_callback_data_ascii_fits (prefix data : str) :
  is_ascii prefix = true -> is_ascii data = true -> (len prefix <= 55)%Z ->
  (Z.of_nat (length (encode (safe_callback_data prefix data))) <= 64)%Z.
Proof.
  intros Hp Hd Hlen. unfold safe_callback_data.
  destruct (len data <=? 64 - len prefix - 1)%Z eqn:E.
  - apply Z.leb_le in E.
    rewrite encode_ascii
      by (rewrite !is_ascii_app, Hp, Hd; reflexivity).
    fold (len (prefix ++ lit "_" ++ data)). rewrite !len_app.
    change (len (lit "_")) with 1%Z. lia.
  - rewrite encode_ascii
      by (rewrite !is_ascii_app, Hp, (is_hex_ascii _ (hash_id_is_hex data));
          reflexivity).
    fold (len (prefix ++ lit "_" ++ hash_id data)). rewrite !len_app.
    unfold len at 3. rewrite hash_id_length.
    change (len (lit "_")) with 1%Z. lia.
Qed.

(** C8 (the code misses the exact lookup): the handle ["red-rose"] has 8
    characters and is no hex digest; its token carries it verbatim, and
    the lookup, taking the digest branch, does not find the product that
    an exact comparison of handles finds. *)
Theorem lookup_product_misses_8_char_handle :
  callback_payload (safe_callback_data (lit "product") (handle red_rose))
  = Some (lit "red-rose")
  /\ forallb Sha1.is_hex (lit "red-rose") = false
  /\ find (fun p => str_eqb (handle p) (lit "red-rose")) [red_rose]
     = Some red_rose
  /\ lookup_product (lit "red-rose") [red_rose] = None.
Proof. vm_compute. repeat split. Qed.

(** C9 as stated fails: [long_handle] has 200 characters, its product is
    among the candidates, and the lookup of its payload returns the
    product ["bouquet-366"], which comes first and has the same digest. *)
Lemma long_roundtrip_collision :
  ~ long_roundtrip_claim long_handle [bouquet_366; long_rose] long_rose.
Proof.
  intros H.
  destruct H as (payload & Hp & Hl);
    [vm_compute; reflexivity | right; left; reflexivity | reflexivity |].
  assert (E : callback_payload (safe_callback_data (lit "product") long_handle)
              = Some (lit "7e2d4a4c")) by (vm_compute; reflexivity).
  rewrite E in Hp. injection Hp as <-.
  assert (F : lookup_product (lit "7e2d4a4c") [bouquet_366; long_rose]
              = Some bouquet_366) by (vm_compute; reflexivity).
  rewrite F in Hl. discriminate Hl.
Qed.

(** C9, amended: the token of ["short-handle"] carries it as payload and
    the lookup returns the first candidate with that handle; for an
    identifier [X] of 200 characters the payload is the 8 hex characters of
    [X]'s digest, and the lookup returns the first candidate whose handle
    has that digest, which is [X]'s product when no earlier candidate
    collides with it. *)
Theorem roundtrip_through_lookup :
  (callback_payload (safe_callback_data (lit "product") (lit "short-handle"))
   = Some (lit "short-handle")
   /\ forall before p after,
        handle p = lit "short-handle" ->
        (forall q, In q before -> handle q <> lit "short-handle") ->
        lookup_product (lit "short-handle") (before ++ p :: after) = Some p)
  /\ forall X : str,
       length X = 200%nat ->
       exists payload,
         callback_payload (safe_callback_data (lit "product") X) = Some payload
         /\ payload = hash_id X
         /\ length payload = 8%nat
         /\ forallb Sha1.is_hex payload = true
         /\ forall before p after,
              handle p = X ->
              (forall q, In q before -> hash_id (handle q) <> hash_id X) ->
              lookup_product payload (before ++ p :: after) = Some p.
Proof.
  split; [split|].
  - vm_compute. reflexivity.
  - intros before p after Hp Hb.
    change (lookup_product (lit "short-handle") (before ++ p :: after))
      with (find (fun q => str_eqb (handle q) (lit "short-handle"))
                 (before ++ p :: after)).
    apply find_first.
    + rewrite Hp. apply str_eqb_refl.
    + intros q Hq. apply str_eqb_neq. apply Hb. exact Hq.
  - intros X HX. exists (hash_id X).
    assert (E : safe_callback_data (lit "product") X
                = lit "product" ++ lit "_" ++ hash_id X).
    { unfold safe_callback_data.
      replace (len X <=? 64 - len (lit "product") - 1)%Z with false;
        [reflexivity|].
      symmetry. apply Z.leb_gt. unfold len. rewrite HX. vm_compute. reflexivity. }
    rewrite E, callback_payload_product.
    split; [reflexivity|]. split; [reflexivity|].
    split; [apply hash_id_length|]. split; [apply hash_id_is_hex|].
    intros before p after Hp Hb. unfold lookup_product.
    { idtac.
      replace (len (hash_id X) =? 8)%Z with true
        by (unfold len; rewrite hash_id_length; reflexivity).
      apply find_first.
      * rewrite Hp. apply str_eqb_refl.
      * intros q Hq. apply str_eqb_neq. apply Hb. exact Hq. }
Qed.

(** C10: a payload of 8 characters is looked up by digest, whatever its
    characters, and never by handle; so a product whose 8-character handle
    is the digest of no candidate gets a token that carries the handle
    verbatim and that the lookup does not resolve, as ["red-rose"]. *)
Theorem lookup_decides_on_length_alone :
  (forall (candidates : list product) (data : str),
      length data = 8%nat ->
      lookup_product data candidates
      = find (fun p => str_eqb (hash_id (handle p)) data) candidates)
  /\ (forall (candidates : list product) (p : product),
        In p candidates ->
        length (handle p) = 8%nat ->
        (forall q, In q candidates -> hash_id (handle q) <> handle p) ->
        safe_callback_data (lit "product") (handle p)
        = lit "product" ++ lit "_" ++ handle p
        /\ callback_payload (safe_callback_data (lit "product") (handle p))
           = Some (handle p)
        /\ lookup_product (handle p) candidates = None)
  /\ (exists (candidates : list product) (p : product),
        In p candidates
        /\ length (handle p) = 8%nat
        /\ (forall q, In q candidates -> hash_id (handle q) <> handle p)
        /\ find (fun q => str_eqb (handle q) (handle p)) candidates = Some p
        /\ lookup_product (handle p) candidates = None).
Proof.
  assert (L : forall candidates data, length data = 8%nat ->
              lookup_product data candidates
              = find (fun p => str_eqb (hash_id (handle p)) data) candidates).
  { intros candidates data H. unfold lookup_product, len. rewrite H. reflexivity. }
  split; [exact L|]. split.
  - intros candidates p Hin Hlen Hno.
    assert (E : safe_callback_data (lit "product") (handle p)
                = lit "product" ++ lit "_" ++ handle p).
    { unfold safe_callback_data, len. rewrite Hlen. reflexivity. }
    rewrite E, callback_payload_product.
    split; [reflexivity|]. split; [reflexivity|].
    rewrite (L _ _ Hlen). apply find_nowhere.
    intros q Hq. apply str_eqb_neq. apply Hno. exact Hq.
  - exists [red_rose], red_rose.
    split; [left; reflexivity|]. split; [reflexivity|].
    split; [intros q [<-|[]]; vm_compute; discriminate|].
    split; vm_compute; reflexivity.
Qed.

(* ================================================================== *)
(** * Filtering by tag *)
(* ================================================================== *)

Lemma dict_get_absent {V} (d : list (str * V)) (k : str) (default : V) :
  dict_has d k = false -> dict_get d k default = default.
Proof.
  induction d as [|[k' v] d IH]; simpl; [reflexivity|].
  destruct (str_eqb k' k); simpl; [discriminate | exact IH].
Qed.

Lemma tag_loop_filter {U : Unicode} (np : list str) (products filtered : list product) :
  tag_loop np products filtered = filtered ++ filter (tag_match np) products.
Proof.
  revert filtered. induction products as [|p rest IH]; intros filtered; simpl.
  - rewrite app_nil_r. reflexivity.
  - destruct (tag_match np p); rewrite IH; [rewrite <- app_assoc|]; reflexivity.
Qed.

(** The loop keeps the order of the input: it is [filter]. *)
Lemma filter_products_by_tag_filter {U : Unicode} (products : list product)
    (filter_value : str) :
  filter_products_by_tag products filter_value
  = filter (tag_match (map normalize_tag (possible_tags filter_value))) products.
Proof.
  destruct products as [|p rest]; [reflexivity|].
  unfold filter_products_by_tag. rewrite tag_loop_filter. reflexivity.
Qed.

Lemma tag_match_iff {U : Unicode} (np : list str) (p : product) :
  tag_match np p = true
  <-> exists t, In t (map normalize_tag (product_tags p)) /\ In t np.
Proof.
  unfold tag_match. rewrite existsb_exists. split.
  - intros (t & Ht & Hin). apply str_in_In in Hin. exists t; auto.
  - intros (t & Hin & Ht). exists t. split; [exact Ht | apply str_in_In; exact Hin].
Qed.

(** C4: a product is kept exactly when one of its normalized tags (the
    raw field split on commas and trimmed when it is one string) is among
    the normalized surface forms of the filter key; the order of the input
    is kept.  For the key ["valentine"] a product whose tag string is
    ["Valentine's Day, roses"] is kept and one tagged only ["birthday"]
    is not. *)
Theorem filter_products_by_tag_membership :
  forall (U : Unicode) (products : list product) (filter_key : str),
    (forall p,
        In p (filter_products_by_tag products filter_key)
        <-> In p products
            /\ exists t,
                 In t (map normalize_tag
                           (match tags p with
                            | None => []
                            | Some (TagStr s) => map strip (split 44 s)
                            | Some (TagList l) => l
                            end))
                 /\ In t (map normalize_tag
                              (dict_get TAG_MAPPINGS filter_key [filter_key])))
    /\ filter_products_by_tag products filter_key
       = filter (tag_match (map normalize_tag (possible_tags filter_key))) products
    /\ (forall p,
          In p products ->
          tags p = Some (TagStr (lit "Valentine's Day, roses")) ->
          In p (filter_products_by_tag products (lit "valentine")))
    /\ (forall p,
          tags p = Some (TagStr (lit "birthday"))
          \/ tags p = Some (TagList [lit "birthday"]) ->
          ~ In p (filter_products_by_tag products (lit "valentine"))).
Proof.
  intros U products filter_key.
  split; [|split; [apply filter_products_by_tag_filter | split]].
  - intros p. rewrite filter_products_by_tag_filter, filter_In, tag_match_iff.
    reflexivity.
  - intros p Hin Ht. rewrite filter_products_by_tag_filter. apply filter_In.
    split; [exact Hin|].
    unfold tag_match, product_tags. rewrite Ht. vm_compute. reflexivity.
  - intros p Ht Hin. rewrite filter_products_by_tag_filter in Hin.
    apply filter_In in Hin. destruct Hin as [_ Hm].
    unfold tag_match, product_tags in Hm.
    destruct Ht as [Ht|Ht]; rewrite Ht in Hm; vm_compute in Hm; discriminate Hm.
Qed.

(** The tags and the targets of the sample of C4, normalized. *)
Example valentine_normalized (U : Unicode) :
  map normalize_tag (map strip (split 44 (lit "Valentine's Day, roses")))
  = [lit "valentinesday"; lit "roses"]
  /\ map normalize_tag (possible_tags (lit "valentine"))
     = [lit "valentine"; lit "valentines"; lit "valentinesday"].
Proof. vm_compute. split; reflexivity. Qed.

(** C5 as stated fails: ["peonies"] is no key of [TAG_MAPPINGS], and the
    filter still returns the product tagged ["Peonies"]. *)
Lemma absent_key_matches_literal :
  ~ (forall U : Unicode, absent_key_claim [peony] (lit "peonies")).
Proof.
  intros H. specialize (H ascii_tables). unfold absent_key_claim in H.
  assert (E : @filter_products_by_tag ascii_tables [peony] (lit "peonies") = [peony])
    by (vm_compute; reflexivity).
  rewrite E in H. discriminate H. vm_compute. reflexivity.
Qed.

(** C5, amended: on the empty list the filter returns the empty list; for
    a key that [TAG_MAPPINGS] does not have, the key itself is the only
    surface form, and the filter returns, in order, the products one of
    whose normalized tags equals the normalized key.  The function is
    total: neither case raises. *)
Theorem filter_products_by_tag_fallback :
  forall U : Unicode,
    (forall filter_key, filter_products_by_tag [] filter_key = [])
    /\ (forall products filter_key,
          dict_has TAG_MAPPINGS filter_key = false ->
          filter_products_by_tag products filter_key
          = filter (fun p => str_in (normalize_tag filter_key)
                                    (map normalize_tag (product_tags p)))
                   products).
Proof.
  intros U. split; [reflexivity|].
  intros products filter_key H.
  rewrite filter_products_by_tag_filter. unfold possible_tags.
  rewrite (dict_get_absent _ _ _ H).
  apply filter_ext. intros p. unfold tag_match. simpl. apply orb_false_r.
Qed.

(* ================================================================== *)
(** * Filtering by price *)
(* ================================================================== *)

(** [float] of a string raises nothing but [ValueError]. *)
Lemma of_str_error {U : Unicode} (s : str) (e : exn) :
  PyFloat.of_str s = inl e -> e = ValueError.
Proof.
  unfold PyFloat.of_str, PyFloat.float_from_string_inner.
  destruct (PyFloat.without_underscores (PyFloat.to_ascii s)) as [t|];
    [|congruence].
  destruct (rev (PyFloat.lskip (rev (PyFloat.lskip t)))) as [|c r];
    [congruence|].
  destruct (PyFloat.strtod (c :: r)) as [[x [|c' r']]|]; try congruence.
  destruct (PyFloat.parse_inf_or_nan (c :: r)) as [[x [|c' r']]|]; congruence.
Qed.

Lemma of_int_error (z : Z) (e : exn) :
  PyFloat.of_int z = inl e -> e = OverflowError.
Proof.
  unfold PyFloat.of_int. destruct (PyFloat.round_Z z); congruence.
Qed.

Lemma py_float_error {U : Unicode} (v : pyval) (e : exn) :
  py_float v = inl e ->
  e = TypeError \/ e = ValueError
  \/ (e = OverflowError /\ exists z, v = PInt z /\ PyFloat.of_int z = inl OverflowError).
Proof.
  destruct v; simpl; intros H; try (left; congruence); try discriminate.
  - right; right. pose proof (of_int_error _ H) as ->. eauto.
  - right; left. eapply of_str_error; eassumption.
Qed.

Lemma price_loop_filter {U : Unicode} (lo hi : bound) (products filtered : list product) :
  (forall p z, In p products -> product_price p = PInt z ->
               PyFloat.of_int z <> inl OverflowError) ->
  price_loop lo hi products filtered
  = inr (filtered ++ filter (price_in lo hi) products).
Proof.
  revert filtered. induction products as [|p rest IH]; intros filtered Hok.
  - simpl. rewrite app_nil_r. reflexivity.
  - assert (Hrest : forall q z, In q rest -> product_price q = PInt z ->
                                PyFloat.of_int z <> inl OverflowError)
      by (intros q z Hq; apply Hok; right; exact Hq).
    cbn [price_loop filter]. unfold price_in at 1.
    destruct (py_float (product_price p)) as [e|x] eqn:E.
    + destruct (py_float_error _ E) as [->|[->|[-> (z & Hz & Hov)]]];
        try (apply IH; exact Hrest).
      exfalso. apply (Hok p z); [left; reflexivity | exact Hz | exact Hov].
    + destruct (bound_le_float lo x && float_le_bound x hi);
        rewrite (IH _ Hrest); [rewrite <- app_assoc|]; reflexivity.
Qed.

Lemma price_mapping_get (bucket : str) (lo hi : bound) :
  In (bucket, (lo, hi)) price_mapping ->
  dict_get price_mapping bucket (BInt 0, BInf) = (lo, hi) /\ bucket <> [].
Proof.
  unfold price_mapping.
  intros [H|[H|[H|[H|[]]]]]; injection H as <- <- <-;
    (split; [vm_compute; reflexivity | discriminate]).
Qed.

(** C3 as stated fails: the price ["inf"] is no finite number, and
    [over250] keeps the product. *)
Lemma infinite_price_kept :
  ~ (forall U : Unicode, finite_price_claim [priceless] (lit "over250")).
Proof.
  intros H. specialize (H ascii_tables (BInt 251) BInf).
  assert (E : @filter_products_by_price ascii_tables [priceless] (lit "over250")
              = inr [priceless]) by (vm_compute; reflexivity).
  rewrite E in H.
  assert (F : inr [priceless] = (inr [] : result (list product)));
    [|discriminate F].
  rewrite H; [vm_compute; reflexivity|].
  right; right; right; left; reflexivity.
Qed.

(** C3, amended: when no price is an integer beyond the range of a float,
    each bucket keeps, in the order of the input, exactly the products
    whose price (0 when the field is absent) [float] converts to a value
    within the bounds of the bucket, both ends included; the upper bound of
    [over250] is the infinity itself, so the price ["inf"] is kept there;
    prices that [float] rejects are skipped.  In [under50] the prices
    ["49.99"] and ["50"] are kept and ["50.01"] is not. *)
Theorem filter_products_by_price_interval :
  forall (U : Unicode) (products : list product) (bucket : str) (lo hi : bound),
    In (bucket, (lo, hi)) price_mapping ->
    (forall p z, In p products -> product_price p = PInt z ->
                 PyFloat.of_int z <> inl OverflowError) ->
    exists kept,
      filter_products_by_price products bucket = inr kept
      /\ kept = filter (price_in lo hi) products
      /\ (forall p,
            In p kept
            <-> In p products
                /\ exists x, py_float (product_price p) = inr x
                             /\ bound_le_float lo x = true
                             /\ float_le_bound x hi = true)
      /\ (bucket = lit "under50" ->
          forall p, In p products ->
            (price p = Some (PStr (lit "49.99")) -> In p kept)
            /\ (price p = Some (PStr (lit "50")) -> In p kept)
            /\ (price p = Some (PStr (lit "50.01")) -> ~ In p kept))
      /\ (bucket = lit "over250" ->
          forall p, In p products ->
            price p = Some (PStr (lit "inf")) -> In p kept).
Proof.
  intros U products bucket lo hi Hb Hok.
  destruct (@price_mapping_get _ _ _ Hb) as [Hget Hne].
  exists (filter (price_in lo hi) products).
  assert (Hmem : forall p,
            In p (filter (price_in lo hi) products)
            <-> In p products
                /\ exists x, py_float (product_price p) = inr x
                             /\ bound_le_float lo x = true
                             /\ float_le_bound x hi = true).
  { intros p. rewrite filter_In. unfold price_in.
    destruct (py_float (product_price p)) as [e|x].
    - split; [intros [_ H]; discriminate H | intros [_ (x & H & _)]; discriminate H].
    - rewrite andb_true_iff. split.
      + intros [Hin H]. split; [exact Hin | exists x; tauto].
      + intros [Hin (y & Hy & H)]. injection Hy as <-. tauto. }
  split; [|split; [reflexivity | split; [exact Hmem | split]]].
  - unfold filter_products_by_price.
    destruct products as [|p rest]; [reflexivity|].
    destruct bucket as [|c bucket]; [congruence|].
    rewrite Hget. apply (price_loop_filter lo hi (p :: rest) [] Hok).
  - intros -> p Hin.
    assert (lo = BInt 0 /\ hi = BInt 50) as [-> ->]
      by (vm_compute in Hget; injection Hget; auto).
    repeat split; [intros Hp; apply Hmem | intros Hp; apply Hmem
                   | intros Hp Hk; apply Hmem in Hk].
    + split; [exact Hin|]. unfold product_price. rewrite Hp.
      eexists. split; [vm_compute; reflexivity|]. split; reflexivity.
    + split; [exact Hin|]. unfold product_price. rewrite Hp.
      eexists. split; [vm_compute; reflexivity|]. split; reflexivity.
    + destruct Hk as [_ (x & Hx & _ & Hle)].
      unfold product_price in Hx. rewrite Hp in Hx.
      vm_compute in Hx. injection Hx as <-. discriminate Hle.
  - intros -> p Hin Hp.
    assert (lo = BInt 251 /\ hi = BInf) as [-> ->]
      by (vm_compute in Hget; injection Hget; auto).
    apply Hmem. split; [exact Hin|]. unfold product_price. rewrite Hp.
    eexists. split; [vm_compute; reflexivity|]. split; reflexivity.
Qed.

Lemma filter_products_by_price_interval_witness :
  exists kept,
    @filter_products_by_price ascii_tables
      [priced "a" "49.99"; priced "b" "50"; priced "c" "50.01";
       priced "d" "abc"; priceless]
      (lit "under50") = inr kept
    /\ kept = [priced "a" "49.99"; priced "b" "50"].
Proof.
  destruct (@filter_products_by_price_interval ascii_tables
              [priced "a" "49.99"; priced "b" "50"; priced "c" "50.01";
               priced "d" "abc"; priceless]
              (lit "under50") (BInt 0) (BInt 50))
    as (kept & Hk & Hf & _).
  - left; reflexivity.
  - intros p z [<-|[<-|[<-|[<-|[<-|[]]]]]]; discriminate.
  - exists kept. split; [exact Hk|]. rewrite Hf. vm_compute. reflexivity.
Defined.

(** An integer price beyond the range of a float leaves the function with
    [OverflowError], which the loop does not catch. *)
Example huge_int_price_raises (U : Unicode) :
  filter_products_by_price
    [Product (lit "x") (lit "x") None (Some (PInt (10 ^ 400)))] (lit "under50")
  = inl OverflowError.
Proof. vm_compute. reflexivity. Qed.

(** A product without a price counts as priced 0. *)
Example missing_price_is_zero (U : Unicode) :
  filter_products_by_price [Product (lit "x") (lit "x") None None] (lit "under50")
  = inr [Product (lit "x") (lit "x") None None].
Proof. vm_compute. reflexivity. Qed.

(* ================================================================== *)
(** * The product cache *)
(* ================================================================== *)

Ltac run_cache :=
  cbv beta iota delta
    [cache_products refresh bind ret get_context get_cached_products
     get_cache_time time_time get_all_products set_cached_products
     set_cache_time no_cached_products fst snd cached_products cache_time
     elapsed tick fetched].

Lemma float_le_not_gt (x : PyFloat.float) (a : Z) :
  PyFloat.float_le_int x a = true -> PyFloat.float_gt_int x a = false.
Proof.
  unfold PyFloat.float_le_int, PyFloat.float_gt_int.
  destruct (PyFloat.Z_cmp_float a x) as [[]|]; congruence.
Qed.

(** Without a snapshot, or with an empty one, the get fetches. *)
Lemma cache_products_first (c : context) (w : world) :
  no_cached_products c = true ->
  cache_products (c, w)
  = (inr (fetched w),
     (Ctx (Some (fetched w)) (Some (clock w (ticks w))),
      World (shopify_enabled w) (clock w) (replies w) (S (ticks w))
            (S (fetches w)))).
Proof.
  intros H. run_cache. unfold no_cached_products in H.
  destruct c as [[[|p ps]|] t]; cbn [cached_products] in *;
    try discriminate H; reflexivity.
Qed.

(** A non-empty snapshot that is not older than 600 seconds is returned
    as it is, after one reading of the clock. *)
Lemma cache_products_fresh (ps : list product) (t0 : PyFloat.float) (w : world) :
  ps <> [] ->
  PyFloat.float_gt_int (elapsed w t0) 600 = false ->
  cache_products (Ctx (Some ps) (Some t0), w)
  = (inr ps, (Ctx (Some ps) (Some t0), tick w)).
Proof.
  intros Hne H. destruct ps as [|p rest]; [congruence|].
  unfold elapsed in H. run_cache. rewrite H. reflexivity.
Qed.

(** A non-empty snapshot older than 600 seconds is replaced by one fetch. *)
Lemma cache_products_stale (ps : list product) (t0 : PyFloat.float) (w : world) :
  ps <> [] ->
  PyFloat.float_gt_int (elapsed w t0) 600 = true ->
  cache_products (Ctx (Some ps) (Some t0), w)
  = (inr (fetched w),
     (Ctx (Some (fetched w)) (Some (clock w (S (ticks w)))),
      World (shopify_enabled w) (clock w) (replies w) (S (S (ticks w)))
            (S (fetches w)))).
Proof.
  intros Hne H. destruct ps as [|p rest]; [congruence|].
  unfold elapsed in H. run_cache. rewrite H. reflexivity.
Qed.

Lemma fetch_fails_empty (w : world) : fetch_fails w -> fetched w = [].
Proof.
  unfold fetch_fails, fetched.
  intros [H|[H|H]]; rewrite H; [reflexivity | |];
    destruct (shopify_enabled w); reflexivity.
Qed.

(** C1 as stated fails: the snapshot is 601 seconds old, the request
    fails, and the get returns the empty list, not the snapshot. *)
Lemma stale_snapshot_is_lost :
  ~ stale_fallback_claim [red_rose] t_fetch (world_at t_plus_601 Failed).
Proof.
  intros H.
  assert (E : fst (cache_products (Ctx (Some [red_rose]) (Some t_fetch),
                                   world_at t_plus_601 Failed)) = inr [])
    by (vm_compute; reflexivity).
  rewrite H in E.
  - discriminate E.
  - discriminate.
  - vm_compute. reflexivity.
  - right; left. reflexivity.
Qed.

(** C1, amended: when the fetch fails the get returns the empty list and
    raises nothing, both without a prior snapshot and with a snapshot that
    is stale past 600 seconds; the stale snapshot is replaced by the empty
    list. *)
Theorem failed_fetch_gives_empty :
  forall (c : context) (w : world),
    fetch_fails w ->
    (no_cached_products c = true
     \/ exists ps t0,
          c = Ctx (Some ps) (Some t0) /\ ps <> []
          /\ PyFloat.float_gt_int (elapsed w t0) 600 = true) ->
    exists c' w',
      cache_products (c, w) = (inr [], (c', w'))
      /\ cached_products c' = Some []
      /\ fetches w' = S (fetches w).
Proof.
  intros c w Hf [H|(ps & t0 & -> & Hne & Hst)].
  - rewrite (@cache_products_first c w H), (@fetch_fails_empty w Hf).
    eexists _, _. split; [reflexivity | split; reflexivity].
  - rewrite (@cache_products_stale ps t0 w Hne Hst), (@fetch_fails_empty w Hf).
    eexists _, _. split; [reflexivity | split; reflexivity].
Qed.

Lemma failed_fetch_gives_empty_witness :
  exists c' w',
    cache_products (Ctx (Some [red_rose]) (Some t_fetch),
                    world_at t_plus_601 Failed) = (inr [], (c', w'))
    /\ cached_products c' = Some []
    /\ fetches w' = 1%nat.
Proof.
  apply (@failed_fetch_gives_empty (Ctx (Some [red_rose]) (Some t_fetch))
           (world_at t_plus_601 Failed)).
  - right; left. reflexivity.
  - right. exists [red_rose], t_fetch.
    split; [reflexivity | split; [discriminate | vm_compute; reflexivity]].
Defined.

(** C2 as stated fails: at exactly 600 seconds the get does not fetch. *)
Lemma no_refetch_at_600 :
  ~ refetch_from_600_claim [red_rose] t_fetch (world_at t_plus_600 (Edges [rose_node])).
Proof.
  intros H.
  assert (E : fetches (snd (snd (cache_products
                (Ctx (Some [red_rose]) (Some t_fetch),
                 world_at t_plus_600 (Edges [rose_node]))))) = 0%nat)
    by (vm_compute; reflexivity).
  rewrite H in E.
  - discriminate E.
  - discriminate.
  - vm_compute. reflexivity.
Qed.

(** C2, amended: with a non-empty snapshot fetched at [t0], a get at
    which the elapsed time is at most 600 seconds returns the snapshot
    and fetches nothing; a get at which it is more than 600 seconds makes
    exactly one fetch, whose result replaces the snapshot and is returned.
    At 599 seconds nothing is fetched, at 601 seconds one fetch is made. *)
Theorem ttl_refresh :
  forall (ps : list product) (t0 : PyFloat.float) (w : world),
    ps <> [] ->
    let c := Ctx (Some ps) (Some t0) in
    (PyFloat.float_le_int (elapsed w t0) 600 = true ->
     cache_products (c, w) = (inr ps, (c, tick w))
     /\ fetches (tick w) = fetches w)
    /\ (PyFloat.float_gt_int (elapsed w t0) 600 = true ->
        exists c' w',
          cache_products (c, w) = (inr (fetched w), (c', w'))
          /\ cached_products c' = Some (fetched w)
          /\ cache_time c' = Some (clock w (S (ticks w)))
          /\ fetches w' = S (fetches w))
    /\ (elapsed w t0 = PyFloat.round_Z 599 ->
        fetches (snd (snd (cache_products (c, w)))) = fetches w)
    /\ (elapsed w t0 = PyFloat.round_Z 601 ->
        fetches (snd (snd (cache_products (c, w)))) = S (fetches w)).
Proof.
  intros ps t0 w Hne c. subst c.
  split; [|split; [|split]].
  - intros H. rewrite (@cache_products_fresh ps t0 w Hne (@float_le_not_gt _ _ H)).
    split; reflexivity.
  - intros H. rewrite (@cache_products_stale ps t0 w Hne H).
    eexists _, _. split; [reflexivity | repeat split].
  - intros H. rewrite (@cache_products_fresh ps t0 w Hne); [reflexivity|].
    rewrite H. vm_compute. reflexivity.
  - intros H. rewrite (@cache_products_stale ps t0 w Hne); [reflexivity|].
    rewrite H. vm_compute. reflexivity.
Qed.

Lemma ttl_refresh_witness :
  elapsed (world_at t_plus_599 (Edges [rose_node])) t_fetch = PyFloat.round_Z 599
  /\ fetches (snd (snd (cache_products
       (Ctx (Some [red_rose]) (Some t_fetch),
        world_at t_plus_599 (Edges [rose_node]))))) = 0%nat
  /\ elapsed (world_at t_plus_601 (Edges [rose_node])) t_fetch = PyFloat.round_Z 601
  /\ fetches (snd (snd (cache_products
       (Ctx (Some [red_rose]) (Some t_fetch),
        world_at t_plus_601 (Edges [rose_node]))))) = 1%nat.
Proof.
  assert (Hne : [red_rose] <> []) by discriminate.
  assert (E599 : elapsed (world_at t_plus_599 (Edges [rose_node])) t_fetch
                 = PyFloat.round_Z 599) by (vm_compute; reflexivity).
  assert (E601 : elapsed (world_at t_plus_601 (Edges [rose_node])) t_fetch
                 = PyFloat.round_Z 601) by (vm_compute; reflexivity).
  split; [exact E599|]. split.
  - exact (proj1 (proj2 (proj2
      (@ttl_refresh [red_rose] t_fetch (world_at t_plus_599 (Edges [rose_node])) Hne)))
      E599).
  - split; [exact E601|].
    exact (proj2 (proj2 (proj2
      (@ttl_refresh [red_rose] t_fetch (world_at t_plus_601 (Edges [rose_node])) Hne)))
      E601).
Defined.

(** An empty snapshot is fetched again at once, however fresh it is. *)
Example empty_snapshot_refetched :
  fetches (snd (snd (cache_products
    (Ctx (Some []) (Some t_fetch), world_at t_plus_599 (Edges [rose_node])))))
  = 1%nat.
Proof. vm_compute. reflexivity. Qed.

(* ================================================================== *)
(** * More on [normalize_tag] and the tag filter *)
(* ================================================================== *)

(** X1: Whatever the tag, its normal form has no space, hyphen or apostrophe
    left in it. *)
Theorem normalize_tag_no_separator :
  forall (U : Unicode) (tag : str) (c : N),
    In c (normalize_tag tag) -> c <> 32%N /\ c <> 45%N /\ c <> 39%N.
Proof.
  intros U tag c H. unfold normalize_tag, remove_char in H.
  apply filter_In in H. destruct H as [H H39].
  apply filter_In in H. destruct H as [H H45].
  apply filter_In in H. destruct H as [_ H32].
  apply negb_true_iff, N.eqb_neq in H39, H45, H32. auto.
Qed.

Lemma remove_space_lstrip (s : str) :
  only_spaces s -> remove_char 32 (lstrip s) = remove_char 32 s.
Proof.
  induction s as [|c s IH]; intros H; [reflexivity|].
  cbn [lstrip]. destruct (isspace c) eqn:E.
  - assert (c = 32%N) as -> by (apply H; [left; reflexivity | exact E]).
    unfold remove_char at 2. cbn [filter]. change (32 =? 32)%N with true.
    cbn [negb]. apply IH. intros d Hd. apply H. right; exact Hd.
  - reflexivity.
Qed.

Lemma only_spaces_rev (s : str) : only_spaces s -> only_spaces (rev s).
Proof. intros H c Hc. apply H. apply in_rev. exact Hc. Qed.

Lemma only_spaces_lstrip (s : str) : only_spaces s -> only_spaces (lstrip s).
Proof.
  induction s as [|c s IH]; intros H; [exact H|].
  cbn [lstrip]. destruct (isspace c); [|exact H].
  apply IH. intros d Hd. apply H. right; exact Hd.
Qed.

Lemma remove_space_strip (s : str) :
  only_spaces s -> remove_char 32 (strip s) = remove_char 32 s.
Proof.
  intros H. unfold strip, rstrip, remove_char.
  rewrite filter_rev.
  fold (remove_char 32 (lstrip (rev (lstrip s)))).
  rewrite remove_space_lstrip
    by (apply only_spaces_rev, only_spaces_lstrip; exact H).
  unfold remove_char. rewrite filter_rev, rev_involutive.
  apply remove_space_lstrip. exact H.
Qed.

Lemma ascii_lower_space (c : N) :
  isspace (ascii_lower c) = true -> ascii_lower c = c.
Proof.
  unfold ascii_lower. destruct ((65 <=? c) && (c <=? 90))%N eqn:E; [|reflexivity].
  apply andb_true_iff in E. destruct E as [E1 E2].
  apply N.leb_le in E1, E2. intros H. exfalso.
  unfold isspace in H.
  repeat (apply orb_true_iff in H; destruct H as [H|H]);
    repeat (apply andb_true_iff in H; destruct H as [H ?]);
    repeat match goal with
           | X : (_ <=? _)%N = true |- _ => apply N.leb_le in X
           | X : (_ =? _)%N = true |- _ => apply N.eqb_eq in X
           end; lia.
Qed.

(** X2: For an ASCII tag whose only white space is the space character, the
    normal form is the tag in lower case with spaces, hyphens and
    apostrophes deleted; so two such tags that differ only in case and in
    those three characters have the same normal form. *)
Theorem normalize_tag_plain :
  forall (U : Unicode) (tag : str),
    is_ascii tag = true -> only_spaces tag ->
    normalize_tag tag = plain_form tag.
Proof.
  intros U tag Ha Hs. unfold normalize_tag, lower. rewrite Ha.
  assert (Hl : only_spaces (map ascii_lower tag)).
  { intros c Hc Hsp. apply in_map_iff in Hc. destruct Hc as (d & <- & Hd).
    pose proof (@ascii_lower_space d Hsp) as E. rewrite E in Hsp |- *.
    apply Hs; assumption. }
  rewrite (@remove_space_strip _ Hl).
  unfold remove_char, plain_form.
  generalize (map ascii_lower tag). intros s.
  induction s as [|c s IH]; [reflexivity|].
  cbn [filter]. destruct (c =? 32)%N; cbn [negb andb]; [exact IH|].
  cbn [filter]. destruct (c =? 45)%N; cbn [negb andb]; [exact IH|].
  cbn [filter]. destruct (c =? 39)%N; cbn [negb andb]; [exact IH|].
  f_equal. exact IH.
Qed.

Lemma normalize_tag_plain_witness :
  @normalize_tag ascii_tables (lit " Father's  Day ")
  = @normalize_tag ascii_tables (lit "fathers-day").
Proof.
  rewrite !(@normalize_tag_plain ascii_tables).
  - vm_compute. reflexivity.
  - vm_compute. reflexivity.
  - intros c Hc Hsp. vm_compute in Hc.
    repeat (destruct Hc as [<-|Hc]; [try reflexivity; discriminate Hsp|]).
    destruct Hc.
  - vm_compute. reflexivity.
  - intros c Hc Hsp. vm_compute in Hc.
    repeat (destruct Hc as [<-|Hc]; [try reflexivity; discriminate Hsp|]).
    destruct Hc.
Defined.

Lemma filter_idempotent {A} (f : A -> bool) (l : list A) :
  filter f (filter f l) = filter f l.
Proof.
  induction l as [|a l IH]; [reflexivity|].
  cbn [filter]. destruct (f a) eqn:E; [|exact IH].
  cbn [filter]. rewrite E, IH. reflexivity.
Qed.

Lemma filter_shorter {A} (f : A -> bool) (l : list A) :
  (length (filter f l) <= length l)%nat.
Proof.
  induction l as [|a l IH]; [apply le_n|].
  cbn [filter]. destruct (f a); cbn [length]; lia.
Qed.

(** X3: The tag filter only selects: what it returns comes from the input
    and is no longer than it; filtering its own result again changes
    nothing; and a list filtered in two pieces gives the two results one
    after the other. *)
Theorem filter_products_by_tag_selects :
  forall (U : Unicode) (products more : list product) (filter_key : str),
    (forall p, In p (filter_products_by_tag products filter_key) -> In p products)
    /\ (length (filter_products_by_tag products filter_key)
        <= length products)%nat
    /\ filter_products_by_tag (filter_products_by_tag products filter_key)
                              filter_key
       = filter_products_by_tag products filter_key
    /\ filter_products_by_tag (products ++ more) filter_key
       = filter_products_by_tag products filter_key
         ++ filter_products_by_tag more filter_key.
Proof.
  intros U products more filter_key.
  rewrite !filter_products_by_tag_filter.
  split; [|split; [|split]].
  - intros p H. apply filter_In in H. apply H.
  - apply filter_shorter.
  - apply filter_idempotent.
  - apply filter_app.
Qed.

(* ================================================================== *)
(** * More on the price filter *)
(* ================================================================== *)

(** A float is a NaN, an infinity, or a ratio [V / K] of integers against
    which every integer is compared exactly. *)
Lemma float_cases (x : PyFloat.float) :
  x = S754_nan \/ x = S754_infinity false \/ x = S754_infinity true
  \/ exists K V : Z,
       (0 < K)%Z /\ forall a, PyFloat.Z_cmp_float a x = Some (a * K ?= V)%Z.
Proof.
  destruct x as [s|[|]| |s m e]; auto.
  - right; right; right. exists 1%Z, 0%Z. split; [lia|].
    intros a. cbn [PyFloat.Z_cmp_float]. rewrite Z.mul_1_r. reflexivity.
  - right; right; right. cbn [PyFloat.Z_cmp_float].
    destruct (0 <=? e)%Z eqn:E.
    + exists 1%Z, ((if s then Z.neg m else Z.pos m) * 2 ^ e)%Z.
      split; [lia|]. intros a. rewrite Z.mul_1_r. reflexivity.
    + exists (2 ^ (- e))%Z, (if s then Z.neg m else Z.pos m).
      split; [apply Z.pow_pos_nonneg; lia|]. intros a. reflexivity.
Qed.

Ltac float_order x :=
  unfold bound_le_float, float_le_bound, PyFloat.int_le_float,
    PyFloat.float_le_int, PyFloat.float_gt_int, float_lt_int,
    PyFloat.float_le, PyFloat.inf in *;
  let K := fresh "K" in
  let V := fresh "V" in
  let HK := fresh "HK" in
  let Hc := fresh "Hc" in
  destruct (float_cases x) as [->|[->|[->|(K & V & HK & Hc)]]];
  [ cbn in *; try discriminate; try congruence; auto
  | cbn in *; try discriminate; try congruence; auto
  | cbn in *; try discriminate; try congruence; auto
  | rewrite ?Hc in *;
    repeat match goal with
           | H : context [(?a * K ?= V)%Z] |- _ =>
               destruct (Z.compare_spec (a * K) V)
           | |- context [(?a * K ?= V)%Z] =>
               destruct (Z.compare_spec (a * K) V)
           end;
    try discriminate; try congruence; try lia; auto ].

Lemma price_loop_inr {U : Unicode} (lo hi : bound)
    (products filtered kept : list product) :
  price_loop lo hi products filtered = inr kept ->
  kept = filtered ++ filter (price_in lo hi) products.
Proof.
  revert filtered. induction products as [|p rest IH]; intros filtered.
  - cbn [price_loop filter]. rewrite app_nil_r. congruence.
  - cbn [price_loop filter]. unfold price_in at 1.
    destruct (py_float (product_price p)) as [e|x].
    + destruct e; try discriminate; apply IH.
    + destruct (bound_le_float lo x && float_le_bound x hi).
      * intros H. rewrite (IH _ H), <- app_assoc. reflexivity.
      * apply IH.
Qed.

(** What it takes to be kept by the price filter, whatever the key. *)
Lemma filter_products_by_price_kept {U : Unicode} (products kept : list product)
    (price_range : str) (p : product) :
  filter_products_by_price products price_range = inr kept ->
  In p kept ->
  In p products /\ price_range <> []
  /\ exists x, py_float (product_price p) = inr x
               /\ bound_le_float
                    (fst (dict_get price_mapping price_range (BInt 0, BInf))) x
                  = true
               /\ float_le_bound
                    x (snd (dict_get price_mapping price_range (BInt 0, BInf)))
                  = true.
Proof.
  unfold filter_products_by_price.
  destruct products as [|q rest]; [intros [= <-] []|].
  destruct price_range as [|c r]; [intros [= <-] []|].
  destruct (dict_get price_mapping (c :: r) (BInt 0, BInf)) as [lo hi].
  intros H Hin. apply price_loop_inr in H. subst kept.
  cbn [app] in Hin. apply filter_In in Hin. destruct Hin as [Hin Hp].
  split; [exact Hin|]. split; [discriminate|].
  unfold price_in in Hp. destruct (py_float (product_price p)) as [e|x];
    [discriminate|].
  apply andb_true_iff in Hp. exists x. cbn [fst snd]. tauto.
Qed.

(** X4: The four ranges leave gaps: a product that one of them keeps has a
    price that is at least 0 and lies neither strictly between 150 and 151
    nor strictly between 250 and 251.  So a product priced 150.50, a
    negative price and a NaN price are listed under no price range. *)
Theorem price_ranges_leave_gaps :
  forall (U : Unicode) (products kept : list product) (bucket : str)
         (lo hi : bound) (p : product) (x : PyFloat.float),
    In (bucket, (lo, hi)) price_mapping ->
    filter_products_by_price products bucket = inr kept ->
    In p kept ->
    py_float (product_price p) = inr x ->
    PyFloat.int_le_float 0 x = true
    /\ PyFloat.float_gt_int x 150 && float_lt_int x 151 = false
    /\ PyFloat.float_gt_int x 250 && float_lt_int x 251 = false.
Proof.
  intros U products kept bucket lo hi p x Hb Hk Hin Hx.
  destruct (filter_products_by_price_kept _ _ _ Hk Hin) as (_ & _ & y & Hy & Hlo & Hhi).
  rewrite Hx in Hy. injection Hy as <-.
  destruct (@price_mapping_get _ _ _ Hb) as [Hget _].
  rewrite Hget in Hlo, Hhi. cbn [fst snd] in Hlo, Hhi.
  unfold price_mapping in Hb.
  destruct Hb as [H|[H|[H|[H|[]]]]]; injection H as <- <- <-;
    float_order x.
Qed.

Lemma price_ranges_leave_gaps_witness :
  PyFloat.int_le_float 0 (PyFloat.of_decimal false 4999 (-2)) = true
  /\ PyFloat.float_gt_int (PyFloat.of_decimal false 4999 (-2)) 150
     && float_lt_int (PyFloat.of_decimal false 4999 (-2)) 151 = false
  /\ PyFloat.float_gt_int (PyFloat.of_decimal false 4999 (-2)) 250
     && float_lt_int (PyFloat.of_decimal false 4999 (-2)) 251 = false.
Proof.
  apply (@price_ranges_leave_gaps ascii_tables
           [priced "a" "49.99"; priced "g" "150.50"] [priced "a" "49.99"]
           (lit "under50") (BInt 0) (BInt 50) (priced "a" "49.99")).
  - left; reflexivity.
  - vm_compute. reflexivity.
  - left; reflexivity.
  - vm_compute. reflexivity.
Defined.

(** A price of 150.50 is shown under none of the four ranges. *)
Example price_150_50_is_nowhere (U : Unicode) :
  map (filter_products_by_price [priced "g" "150.50"])
      (map fst price_mapping)
  = [inr []; inr []; inr []; inr []].
Proof. vm_compute. reflexivity. Qed.

(** X5: Two different ranges share one price only: a product kept by two of
    them costs exactly 50. *)
Theorem price_ranges_overlap_at_50 :
  forall (U : Unicode) (products kept1 kept2 : list product)
         (bucket1 bucket2 : str) (lo1 hi1 lo2 hi2 : bound)
         (p : product) (x : PyFloat.float),
    In (bucket1, (lo1, hi1)) price_mapping ->
    In (bucket2, (lo2, hi2)) price_mapping ->
    bucket1 <> bucket2 ->
    filter_products_by_price products bucket1 = inr kept1 ->
    filter_products_by_price products bucket2 = inr kept2 ->
    In p kept1 -> In p kept2 ->
    py_float (product_price p) = inr x ->
    PyFloat.Z_cmp_float 50 x = Some Eq.
Proof.
  intros U products kept1 kept2 bucket1 bucket2 lo1 hi1 lo2 hi2 p x
         Hb1 Hb2 Hne Hk1 Hk2 Hin1 Hin2 Hx.
  destruct (filter_products_by_price_kept _ _ _ Hk1 Hin1)
    as (_ & _ & y & Hy & Hlo1 & Hhi1).
  rewrite Hx in Hy. injection Hy as <-.
  destruct (filter_products_by_price_kept _ _ _ Hk2 Hin2)
    as (_ & _ & y & Hy & Hlo2 & Hhi2).
  rewrite Hx in Hy. injection Hy as <-.
  destruct (@price_mapping_get _ _ _ Hb1) as [Hget1 _].
  destruct (@price_mapping_get _ _ _ Hb2) as [Hget2 _].
  rewrite Hget1 in Hlo1, Hhi1. rewrite Hget2 in Hlo2, Hhi2.
  cbn [fst snd] in Hlo1, Hhi1, Hlo2, Hhi2.
  unfold price_mapping in Hb1, Hb2.
  destruct Hb1 as [H|[H|[H|[H|[]]]]]; injection H as <- <- <-;
    destruct Hb2 as [H|[H|[H|[H|[]]]]]; injection H as <- <- <-;
    try (exfalso; apply Hne; reflexivity);
    clear Hne Hget1 Hget2 Hk1 Hk2; float_order x.
Qed.

Lemma price_ranges_overlap_at_50_witness :
  PyFloat.Z_cmp_float 50 (PyFloat.of_decimal false 50 0) = Some Eq.
Proof.
  apply (@price_ranges_overlap_at_50 ascii_tables
           [priced "b" "50"] [priced "b" "50"] [priced "b" "50"]
           (lit "under50") (lit "50-150")
           (BInt 0) (BInt 50) (BInt 50) (BInt 150) (priced "b" "50")).
  - left; reflexivity.
  - right; left; reflexivity.
  - discriminate.
  - vm_compute. reflexivity.
  - vm_compute. reflexivity.
  - left; reflexivity.
  - left; reflexivity.
  - vm_compute. reflexivity.
Defined.

Lemma nonneg_below_inf (x : PyFloat.float) :
  PyFloat.int_le_float 0 x = true -> PyFloat.float_le x PyFloat.inf = true.
Proof.
  unfold PyFloat.int_le_float, PyFloat.float_le, PyFloat.inf.
  destruct x as [s|[|]| |s m e]; cbn; try discriminate; reflexivity.
Qed.

(** X6: A price range that [price_mapping] does not know is read as "from 0
    up": the filter then keeps, in order, exactly the products whose price
    converts to a float that is at least 0, an infinite one included; with
    the empty string as range it returns nothing. *)
Theorem filter_products_by_price_unknown_range :
  forall (U : Unicode) (products kept : list product) (price_range : str),
    dict_has price_mapping price_range = false ->
    filter_products_by_price products price_range = inr kept ->
    (price_range = [] -> kept = [])
    /\ (price_range <> [] ->
        kept = filter (fun p => match py_float (product_price p) with
                                | inr x => PyFloat.int_le_float 0 x
                                | inl _ => false
                                end) products).
Proof.
  intros U products kept price_range Habs Hk. split.
  - intros ->. unfold filter_products_by_price in Hk.
    destruct products; congruence.
  - intros Hne. unfold filter_products_by_price in Hk.
    destruct products as [|q rest]; [injection Hk as <-; reflexivity|].
    destruct price_range as [|c r]; [congruence|].
    rewrite (@dict_get_absent _ price_mapping (c :: r) (BInt 0, BInf) Habs) in Hk.
    apply price_loop_inr in Hk. subst kept. cbn [app].
    apply filter_ext. intros p. unfold price_in.
    destruct (py_float (product_price p)) as [e|x]; [reflexivity|].
    cbn [bound_le_float float_le_bound].
    destruct (PyFloat.int_le_float 0 x) eqn:E; [|reflexivity].
    rewrite (nonneg_below_inf _ E). reflexivity.
Qed.

Lemma filter_products_by_price_unknown_range_witness :
  [priced "a" "49.99"; priceless]
  = filter (fun p => match @py_float ascii_tables (product_price p) with
                     | inr x => PyFloat.int_le_float 0 x
                     | inl _ => false
                     end)
           [priced "a" "49.99"; priced "n" "-5"; priceless; priced "d" "abc"].
Proof.
  apply (@filter_products_by_price_unknown_range ascii_tables
           [priced "a" "49.99"; priced "n" "-5"; priceless; priced "d" "abc"]
           [priced "a" "49.99"; priceless] (lit "cheap")).
  - vm_compute. reflexivity.
  - vm_compute. reflexivity.
  - discriminate.
Defined.

(* ================================================================== *)
(** * More on callback tokens *)
(* ================================================================== *)

Lemma split1_prefix (prefix d : str) :
  (forall c, In c prefix -> c <> 95%N) ->
  split1 95 (prefix ++ 95%N :: d) = [prefix; d].
Proof.
  induction prefix as [|x prefix IH]; intros H; [reflexivity|].
  cbn [app split1].
  replace (x =? 95)%N with false
    by (symmetry; apply N.eqb_neq, H; left; reflexivity).
  rewrite IH by (intros c Hc; apply H; right; exact Hc). reflexivity.
Qed.

Lemma callback_payload_prefix (prefix d : str) :
  (forall c, In c prefix -> c <> 95%N) ->
  callback_payload (prefix ++ lit "_" ++ d) = Some d.
Proof.
  intros H. unfold callback_payload.
  change (prefix ++ lit "_" ++ d) with (prefix ++ 95%N :: d).
  rewrite (@split1_prefix prefix d H). reflexivity.
Qed.

(** X7: A token round-trips through the lookup for every handle whose length
    is not 8: with a prefix free of underscores, the payload of
    [safe_callback_data prefix handle] resolves to the first candidate
    with that handle when the handle is within the budget, and to the
    first candidate with the same 8-digit digest when it is longer. *)
Theorem token_resolves_unless_8_long :
  forall (prefix : str) (before : list product) (p : product)
         (after : list product),
    (forall c, In c prefix -> c <> 95%N) ->
    length (handle p) <> 8%nat ->
    (forall q, In q before ->
       if (len (handle p) <=? 64 - len prefix - 1)%Z
       then handle q <> handle p
       else hash_id (handle q) <> hash_id (handle p)) ->
    exists payload,
      callback_payload (safe_callback_data prefix (handle p)) = Some payload
      /\ lookup_product payload (before ++ p :: after) = Some p.
Proof.
  intros prefix before p after Hpre Hlen Hb.
  unfold safe_callback_data.
  destruct (len (handle p) <=? 64 - len prefix - 1)%Z.
  - exists (handle p). split; [apply callback_payload_prefix; exact Hpre|].
    unfold lookup_product.
    replace (len (handle p) =? 8)%Z with false
      by (symmetry; apply Z.eqb_neq; unfold len; lia).
    apply find_first; [apply str_eqb_refl|].
    intros q Hq. apply str_eqb_neq. apply Hb. exact Hq.
  - exists (hash_id (handle p)).
    split; [apply callback_payload_prefix; exact Hpre|].
    unfold lookup_product.
    replace (len (hash_id (handle p)) =? 8)%Z with true
      by (unfold len; rewrite hash_id_length; reflexivity).
    apply find_first; [apply str_eqb_refl|].
    intros q Hq. apply str_eqb_neq. apply Hb. exact Hq.
Qed.

Lemma token_resolves_unless_8_long_witness :
  exists payload,
    callback_payload (safe_callback_data (lit "product") (handle long_rose))
    = Some payload
    /\ lookup_product payload ([red_rose; peony] ++ long_rose :: [bouquet_366])
       = Some long_rose.
Proof.
  apply (@token_resolves_unless_8_long (lit "product") [red_rose; peony]
           long_rose [bouquet_366]).
  - intros c Hc. vm_compute in Hc.
    repeat (destruct Hc as [<-|Hc]; [discriminate|]). destruct Hc.
  - vm_compute. discriminate.
  - intros q [<-|[<-|[]]]; vm_compute; discriminate.
Defined.

(** X8: With ASCII text and a prefix of at most 55 characters the token that
    [safe_callback_data] builds is at most 64 octets long in UTF-8. *)
Theorem token_fits_when_ascii :
  forall prefix data : str,
    is_ascii prefix = true -> is_ascii data = true -> (len prefix <= 55)%Z ->
    (length (encode (safe_callback_data prefix data)) <= 64)%nat.
Proof.
  intros prefix data Hp Hd Hl.
  pose proof (safe_callback_data_ascii_fits prefix data Hp Hd Hl). lia.
Qed.

Lemma token_fits_when_ascii_witness :
  (length (encode (safe_callback_data (lit "product") long_handle)) <= 64)%nat.
Proof.
  apply token_fits_when_ascii; vm_compute; solve [reflexivity | discriminate].
Defined.

(* ================================================================== *)
(** * More on the product cache *)
(* ================================================================== *)

(** X9: [cache_products] keeps the two attributes together.  Called on a
    context that has no products yet, or that has its [cache_time], it
    raises nothing, returns exactly the list it leaves in
    [cached_products], leaves [cache_time] set, and calls
    [get_all_products] at most once. *)
Theorem cache_products_keeps_attributes :
  forall (c : context) (w : world),
    no_cached_products c = true \/ cache_time c <> None ->
    exists ps c' w',
      cache_products (c, w) = (inr ps, (c', w'))
      /\ cached_products c' = Some ps
      /\ cache_time c' <> None
      /\ (fetches w' = fetches w \/ fetches w' = S (fetches w)).
Proof.
  intros c w [H|H].
  - rewrite (@cache_products_first c w H).
    eexists _, _, _. split; [reflexivity|].
    split; [reflexivity|]. split; [discriminate | right; reflexivity].
  - destruct (no_cached_products c) eqn:E.
    + rewrite (@cache_products_first c w E).
      eexists _, _, _. split; [reflexivity|].
      split; [reflexivity|]. split; [discriminate | right; reflexivity].
    + destruct c as [[[|p ps]|] [t0|]]; cbn in E, H; try discriminate E;
        try congruence.
      destruct (PyFloat.float_gt_int (elapsed w t0) 600) eqn:G.
      * rewrite (@cache_products_stale (p :: ps) t0 w); [|discriminate|exact G].
        eexists _, _, _. split; [reflexivity|].
        split; [reflexivity|]. split; [discriminate | right; reflexivity].
      * rewrite (@cache_products_fresh (p :: ps) t0 w); [|discriminate|exact G].
        eexists _, _, _. split; [reflexivity|].
        split; [reflexivity|]. split; [discriminate | left; reflexivity].
Qed.

Lemma cache_products_keeps_attributes_witness :
  exists ps c' w',
    cache_products (Ctx None None, world_at t_fetch (Edges [rose_node]))
    = (inr ps, (c', w'))
    /\ cached_products c' = Some ps
    /\ cache_time c' <> None
    /\ (fetches w' = 0%nat \/ fetches w' = 1%nat).
Proof.
  apply (@cache_products_keeps_attributes (Ctx None None)
           (world_at t_fetch (Edges [rose_node]))).
  left. reflexivity.
Defined.

(** X10: Products without their [cache_time] make [cache_products] raise
    [AttributeError], after one reading of the clock and without a fetch. *)
Theorem cache_products_without_cache_time :
  forall (ps : list product) (w : world),
    ps <> [] ->
    cache_products (Ctx (Some ps) None, w)
    = (inl AttributeError, (Ctx (Some ps) None, tick w)).
Proof.
  intros ps w H. destruct ps as [|p rest]; [congruence|]. reflexivity.
Qed.

Lemma cache_products_without_cache_time_witness :
  fst (cache_products (Ctx (Some [red_rose]) None, world_at t_fetch Failed))
  = inl AttributeError.
Proof.
  rewrite (@cache_products_without_cache_time [red_rose] (world_at t_fetch Failed));
    [reflexivity | discriminate].
Defined.

(** X11: Two gets in a row: when the first get fills an empty context with a
    non-empty catalog and the second get comes at most 600 seconds after
    the time the first one stored, the second returns the same list and
    the shop has been asked once in all. *)
Theorem cache_products_second_get :
  forall (c : context) (w : world),
    no_cached_products c = true ->
    fetched w <> [] ->
    PyFloat.float_le_int
      (PyFloat.float_sub (clock w (S (ticks w))) (clock w (ticks w))) 600 = true ->
    exists c' w',
      cache_products (snd (cache_products (c, w))) = (inr (fetched w), (c', w'))
      /\ fst (cache_products (c, w)) = inr (fetched w)
      /\ c' = fst (snd (cache_products (c, w)))
      /\ fetches w' = S (fetches w).
Proof.
  intros c w H Hne Hle.
  rewrite (@cache_products_first c w H). cbn [fst snd].
  rewrite (@cache_products_fresh (fetched w) (clock w (ticks w))).
  - eexists _, _. split; [reflexivity|]. repeat split.
  - exact Hne.
  - apply float_le_not_gt. exact Hle.
Qed.

Lemma cache_products_second_get_witness :
  exists c' w',
    cache_products
      (snd (cache_products (Ctx None None, world_at t_fetch (Edges [rose_node]))))
    = (inr (fetched (world_at t_fetch (Edges [rose_node]))), (c', w'))
    /\ fst (cache_products (Ctx None None, world_at t_fetch (Edges [rose_node])))
       = inr (fetched (world_at t_fetch (Edges [rose_node])))
    /\ c' = fst (snd (cache_products
                        (Ctx None None, world_at t_fetch (Edges [rose_node]))))
    /\ fetches w' = 1%nat.
Proof.
  apply (@cache_products_second_get (Ctx None None)
           (world_at t_fetch (Edges [rose_node]))).
  - reflexivity.
  - vm_compute. discriminate.
  - vm_compute. reflexivity.
Defined.

(** X12: What [get_all_products] makes of a reply: one product for each node
    that has a variant, in the order of the reply, each with the price of
    its first variant; nodes without a variant are dropped, and a failed
    or unusable reply gives the empty list.  So every product that comes
    from the shop has a price. *)
Theorem products_of_response_priced :
  forall (r : response),
    (forall p, In p (products_of_response r) ->
       exists nodes n v vs,
         r = Edges nodes /\ In n nodes /\ node_variants n = v :: vs
         /\ p = Product (node_handle n) (node_title n) (node_tags n) (Some v))
    /\ (forall nodes, r = Edges nodes ->
        map handle (products_of_response r)
        = map node_handle
              (filter (fun n => match node_variants n with
                                | [] => false
                                | _ :: _ => true
                                end) nodes))
    /\ (r = Failed \/ r = Malformed -> products_of_response r = []).
Proof.
  intros r. split; [|split].
  - intros p H. destruct r as [| |nodes]; try destruct H.
    cbn [products_of_response] in H. apply in_flat_map in H.
    destruct H as (n & Hn & Hp).
    destruct (node_variants n) as [|v vs] eqn:E; [destruct Hp|].
    destruct Hp as [<-|[]]. exists nodes, n, v, vs. auto.
  - intros nodes ->. cbn [products_of_response].
    induction nodes as [|n nodes IH]; [reflexivity|].
    cbn [flat_map filter]. destruct (node_variants n) as [|v vs].
    + exact IH.
    + cbn [app map handle]. f_equal. exact IH.
  - intros [->| ->]; reflexivity.
Qed.

(* ================================================================== *)
(** * Query escaping, similar products and links *)
(* ================================================================== *)

Lemma replace_char_app (c : N) (rep a b : str) :
  replace_char c rep (a ++ b) = replace_char c rep a ++ replace_char c rep b.
Proof. apply flat_map_app. Qed.

(** The two replacements amount to one pass over the text. *)
Lemma escape_shopify_query_cons (c : N) (s : str) :
  escape_shopify_query (c :: s)
  = (if (c =? 92)%N then [92; 92]%N
     else if (c =? 34)%N then [92; 34]%N else [c])
    ++ escape_shopify_query s.
Proof.
  unfold escape_shopify_query. cbn [replace_char flat_map].
  fold (replace_char 92 [92; 92]%N s).
  fold (replace_char 34 [92; 34]%N
          ((if (c =? 92)%N then [92; 92]%N else [c])
           ++ replace_char 92 [92; 92]%N s)).
  rewrite replace_char_app. f_equal.
  destruct (c =? 92)%N eqn:E; [reflexivity|].
  unfold replace_char. cbn [flat_map]. rewrite app_nil_r. reflexivity.
Qed.

(** X13: Escaping loses nothing and leaves no bare quote: reading a backslash
    as "take the next character" gives the text back, so different texts
    have different escapes, and in the escaped text every double quote
    has a backslash right before it. *)
Theorem escape_shopify_query_reversible :
  forall s : str,
    unescape (escape_shopify_query s) = s
    /\ (forall t, escape_shopify_query t = escape_shopify_query s -> t = s)
    /\ (forall before after,
          escape_shopify_query s = before ++ 34%N :: after ->
          exists before', before = before' ++ [92%N]).
Proof.
  assert (R : forall s, unescape (escape_shopify_query s) = s).
  { induction s as [|c s IH]; [reflexivity|].
    rewrite escape_shopify_query_cons.
    destruct (c =? 92)%N eqn:E92.
    - apply N.eqb_eq in E92. subst c. cbn [app unescape].
      change (92 =? 92)%N with true. cbv iota. rewrite IH. reflexivity.
    - destruct (c =? 34)%N eqn:E34.
      + apply N.eqb_eq in E34. subst c. cbn [app unescape].
        change (92 =? 92)%N with true. cbv iota. rewrite IH. reflexivity.
      + cbn [app unescape]. rewrite E92, IH. reflexivity. }
  intros s. split; [apply R|]. split.
  - intros t H. rewrite <- (R t), H. apply R.
  - induction s as [|c s IH]; intros before after H.
    + destruct before; discriminate H.
    + rewrite escape_shopify_query_cons in H.
      destruct (c =? 92)%N eqn:E92.
      * destruct before as [|b1 [|b2 before]]; cbn [app] in H.
        -- discriminate H.
        -- injection H as _ H _. discriminate H.
        -- injection H as <- <- H.
           destruct (IH _ _ H) as (b' & ->).
           exists (92%N :: 92%N :: b'). reflexivity.
      * destruct (c =? 34)%N eqn:E34.
        -- destruct before as [|b1 [|b2 before]]; cbn [app] in H.
           ++ discriminate H.
           ++ injection H as <- _. exists []. reflexivity.
           ++ injection H as <- <- H.
              destruct (IH _ _ H) as (b' & ->).
              exists (92%N :: 34%N :: b'). reflexivity.
        -- destruct before as [|b1 before]; cbn [app] in H.
           ++ injection H as -> _. discriminate E34.
           ++ injection H as <- H.
              destruct (IH _ _ H) as (b' & ->).
              exists (c :: b'). reflexivity.
Qed.

Lemma similar_loop_firstn (current_handle : str) (limit : Z)
    (edges similar : list similar_node) :
  (length similar < Z.to_nat (Z.max limit 1))%nat ->
  similar_loop current_handle limit edges similar
  = similar
    ++ firstn (Z.to_nat (Z.max limit 1) - length similar)
              (filter (similar_ok current_handle) edges).
Proof.
  revert similar. induction edges as [|n rest IH]; intros similar Hlt.
  - cbn [similar_loop filter]. rewrite firstn_nil, app_nil_r. reflexivity.
  - cbn [similar_loop filter]. destruct (similar_ok current_handle n).
    + rewrite length_app. cbn [length].
      destruct (Z.of_nat (length similar + 1) >=? limit)%Z eqn:E.
      * apply Z.geb_le in E.
        replace (Z.to_nat (Z.max limit 1) - length similar)%nat with 1%nat
          by lia.
        cbn [firstn]. reflexivity.
      * rewrite Z.geb_leb in E. apply Z.leb_gt in E.
        rewrite IH by (rewrite length_app; cbn [length]; lia).
        rewrite length_app. cbn [length]. rewrite <- app_assoc. cbn [app].
        replace (Z.to_nat (Z.max limit 1) - length similar)%nat
          with (S (Z.to_nat (Z.max limit 1) - (length similar + 1)))%nat
          by lia.
        reflexivity.
    + apply IH. exact Hlt.
Qed.

Lemma firstn_subset {A} (n : nat) (l : list A) (a : A) :
  In a (firstn n l) -> In a l.
Proof.
  revert l. induction n as [|n IH]; intros [|b l] H; try destruct H.
  - left; assumption.
  - right. apply IH. assumption.
Qed.

(** X14: [get_similar_products] returns, in the order of the reply, the first
    [limit] nodes that are not the current product and are active,
    published and have a store URL; with a limit below 1 it still returns
    the first such node.  Without tags, and on a failed, erroneous or
    unusable reply, it returns the empty list. *)
Theorem get_similar_products_first_matches :
  forall (current_handle : str) (current_tags : list str) (limit : Z)
         (reply : similar_response),
    (forall nodes,
        current_tags <> [] -> reply = SimEdges nodes ->
        get_similar_products current_handle current_tags limit reply
        = firstn (Z.to_nat (Z.max limit 1))
                 (filter (similar_ok current_handle) nodes))
    /\ (current_tags = [] \/ reply = SimNone \/ reply = SimErrors
        \/ reply = SimMalformed ->
        get_similar_products current_handle current_tags limit reply = [])
    /\ (length (get_similar_products current_handle current_tags limit reply)
        <= Z.to_nat (Z.max limit 1))%nat
    /\ (forall n,
          In n (get_similar_products current_handle current_tags limit reply) ->
          sim_handle n <> current_handle
          /\ sim_status n = PStr (lit "ACTIVE")
          /\ truthy (sim_published n) = true
          /\ truthy (sim_url n) = true).
Proof.
  intros current_handle current_tags limit reply.
  assert (E : forall nodes, current_tags <> [] -> reply = SimEdges nodes ->
              get_similar_products current_handle current_tags limit reply
              = firstn (Z.to_nat (Z.max limit 1))
                       (filter (similar_ok current_handle) nodes)).
  { intros nodes Ht ->. destruct current_tags as [|t ts]; [congruence|].
    cbn [get_similar_products]. rewrite similar_loop_firstn by (cbn [length]; lia).
    cbn [app length]. rewrite Nat.sub_0_r. reflexivity. }
  assert (Z0 : current_tags = [] \/ reply = SimNone \/ reply = SimErrors
               \/ reply = SimMalformed ->
               get_similar_products current_handle current_tags limit reply = []).
  { intros [->|[->|[->| ->]]]; [reflexivity| | |];
      destruct current_tags; reflexivity. }
  split; [exact E|]. split; [exact Z0|].
  destruct current_tags as [|t ts] eqn:Et;
    [rewrite Z0 by (left; reflexivity); split; [cbn; lia | intros n []]|].
  destruct reply as [| | |nodes];
    try (rewrite Z0 by auto; split; [cbn; lia | intros n []]).
  rewrite (E nodes) by (discriminate || reflexivity).
  split; [apply firstn_le_length|].
  intros n Hn. apply firstn_subset in Hn. apply filter_In in Hn.
  destruct Hn as [_ Hn]. unfold similar_ok in Hn.
  repeat (apply andb_true_iff in Hn; destruct Hn as [Hn ?]).
  apply negb_true_iff, str_eqb_neq in Hn.
  split; [exact Hn|]. split; [|split; assumption].
  destruct (sim_status n); try discriminate.
  f_equal. apply str_eqb_eq. assumption.
Qed.

Lemma replace_char_clean (c : N) (rep s : str) :
  ~ In c rep -> ~ In c (replace_char c rep s).
Proof.
  intros Hrep H. unfold replace_char in H. apply in_flat_map in H.
  destruct H as (x & _ & Hx). destruct (x =? c)%N eqn:E.
  - apply Hrep. exact Hx.
  - destruct Hx as [<-|[]]. apply N.eqb_neq in E. apply E. reflexivity.
Qed.

Lemma replace_char_keeps_out (c d : N) (rep s : str) :
  ~ In d rep -> ~ In d s -> ~ In d (replace_char c rep s).
Proof.
  intros Hrep Hs H. unfold replace_char in H. apply in_flat_map in H.
  destruct H as (x & Hin & Hx). destruct (x =? c)%N.
  - apply Hrep. exact Hx.
  - destruct Hx as [<-|[]]. apply Hs. exact Hin.
Qed.

(** X15: The WhatsApp link always starts with the address of the number and
    carries a message in which no space and no ampersand of the title is
    left: both are percent-encoded.  Every other character of the title
    occurs in the message.  The empty title gives the link that no title
    gives. *)
Theorem get_whatsapp_url_encodes_title :
  forall (whatsapp_number title : str),
    exists message,
      get_whatsapp_url whatsapp_number (Some title)
      = lit "https://wa.me/" ++ whatsapp_number ++ lit "?text=" ++ message
      /\ ~ In 32%N message /\ ~ In 38%N message
      /\ (forall c, In c title -> c <> 32%N -> c <> 38%N -> In c message)
      /\ get_whatsapp_url whatsapp_number (Some [])
         = get_whatsapp_url whatsapp_number None.
Proof.
  intros number title.
  set (clean := replace_char 38 (lit "%26") (replace_char 32 (lit "%20") title)).
  assert (H32 : ~ In 32%N clean).
  { apply replace_char_keeps_out.
    - vm_compute. intuition discriminate.
    - apply replace_char_clean. vm_compute. intuition discriminate. }
  assert (H38 : ~ In 38%N clean).
  { apply replace_char_clean. vm_compute. intuition discriminate. }
  assert (Hkeep : forall c, In c title -> c <> 32%N -> c <> 38%N -> In c clean).
  { intros c Hc H1 H2. unfold clean, replace_char.
    apply in_flat_map. exists c. split.
    - apply in_flat_map. exists c. split; [exact Hc|].
      replace (c =? 32)%N with false by (symmetry; apply N.eqb_neq; exact H1).
      left; reflexivity.
    - replace (c =? 38)%N with false by (symmetry; apply N.eqb_neq; exact H2).
      left; reflexivity. }
  destruct title as [|t0 title'] eqn:Et.
  - eexists. split; [unfold get_whatsapp_url; rewrite <- !app_assoc; reflexivity|].
    split; [vm_compute; intuition discriminate|].
    split; [vm_compute; intuition discriminate|].
    split; [intros c []|reflexivity].
  - exists (lit "Hello%20Florist!%20I'm%20interested%20in%20"
            ++ lit "the%20'" ++ clean ++ lit "'%20bouquet.%20"
            ++ lit "Could%20you%20tell%20me%20more%20about%20it?").
    split.
    + unfold get_whatsapp_url. cbv iota. fold clean.
      rewrite <- !app_assoc. reflexivity.
    + split; [|split; [|split; [|reflexivity]]].
      * intros H. repeat (apply in_app_or in H; destruct H as [H|H]);
          try (apply H32; exact H);
          vm_compute in H; intuition discriminate.
      * intros H. repeat (apply in_app_or in H; destruct H as [H|H]);
          try (apply H38; exact H);
          vm_compute in H; intuition discriminate.
      * intros c Hc H1 H2. apply in_or_app. right. apply in_or_app. right.
        apply in_or_app. left. apply Hkeep; assumption.
Qed.

(* ================================================================== *)
(** * Menus and routing *)
(* ================================================================== *)

Lemma splitn_field (m : nat) (field rest : str) :
  (forall c, In c field -> c <> 95%N) ->
  splitn 95 (S m) (field ++ 95%N :: rest)
  = field :: match rest with
             | [] => [[]]
             | _ => splitn 95 m rest
             end.
Proof.
  induction field as [|x field IH]; intros H.
  - cbn [app splitn]. change (95 =? 95)%N with true. cbv iota.
    destruct rest; reflexivity.
  - cbn [app splitn].
    replace (x =? 95)%N with false
      by (symmetry; apply N.eqb_neq, H; left; reflexivity).
    rewrite IH by (intros c Hc; apply H; right; exact Hc). reflexivity.
Qed.

(** The callback data of a filter button parse back into its two parts
    whenever the category has no underscore, whatever the value. *)
Lemma splitn_filter (category_type filter_value : str) :
  (forall c, In c category_type -> c <> 95%N) ->
  splitn 95 2 (lit "filter_" ++ category_type ++ lit "_" ++ filter_value)
  = [lit "filter"; category_type; filter_value].
Proof.
  intros H.
  change (lit "filter_" ++ category_type ++ lit "_" ++ filter_value)
    with (lit "filter" ++ 95%N :: (category_type ++ 95%N :: filter_value)).
  rewrite splitn_field
    by (intros c Hc; vm_compute in Hc;
        repeat (destruct Hc as [<-|Hc]; [discriminate|]); destruct Hc).
  destruct (category_type ++ 95%N :: filter_value) eqn:E;
    [destruct category_type; discriminate E|].
  rewrite <- E. rewrite splitn_field by exact H.
  destruct filter_value; reflexivity.
Qed.

Lemma menus_keys (category_type : str) (m : str * list (str * str)) :
  dict_find menus category_type = Some m ->
  category_type = lit "price" \/ category_type = lit "occasion"
  \/ category_type = lit "flowers".
Proof.
  unfold menus. cbn [dict_find].
  destruct (str_eqb (lit "price") category_type) eqn:E1;
    [apply str_eqb_eq in E1; auto|].
  destruct (str_eqb (lit "occasion") category_type) eqn:E2;
    [apply str_eqb_eq in E2; auto|].
  destruct (str_eqb (lit "flowers") category_type) eqn:E3;
    [apply str_eqb_eq in E3; auto|discriminate].
Qed.

(** X16: Every button that [category_menu] shows either goes back to the main
    menu or is a filter button whose callback data go to [apply_filter]
    and are split there into the category of the menu and a value that
    [TAG_MAPPINGS] and [filter_labels] know; in the price menu the value
    is a key of [price_mapping]. *)
Theorem category_menu_buttons_lead_to_filters :
  forall (SHOPIFY_ENABLED : bool) (data : str) (scr : screen) (row : list button)
         (b : button),
    category_menu_screen data = Some scr ->
    In row (keyboard scr) -> In b row ->
    press b = Callback (lit "back_to_main")
    \/ exists category_type filter_value d,
         press b = Callback d
         /\ nth_error (split 95 data) 1 = Some category_type
         /\ splitn 95 2 d = [lit "filter"; category_type; filter_value]
         /\ route SHOPIFY_ENABLED d = Some apply_filter_handler
         /\ dict_has TAG_MAPPINGS filter_value = true
         /\ dict_has filter_labels filter_value = true
         /\ (category_type = lit "price" ->
             dict_has price_mapping filter_value = true).
Proof.
  intros en data scr row b Hs Hrow Hb. unfold category_menu_screen in Hs.
  destruct (split 95 data) as [|f0 [|ct rest]] eqn:Es; try discriminate Hs.
  destruct (dict_find menus ct) as [[menu_title options]|] eqn:Em;
    injection Hs as <-; [|cbn [keyboard In] in Hrow; destruct Hrow].
  destruct (@menus_keys _ _ Em) as [->|[->| ->]];
    vm_compute in Em; injection Em as <- <-;
    cbn [keyboard map app fst snd In] in Hrow;
    repeat (destruct Hrow as [<-|Hrow];
            [destruct Hb as [<-|[]];
             first [ left; reflexivity
                   | right; eexists _, _, _;
                     split; [reflexivity|];
                     split; [reflexivity|];
                     split; [vm_compute; reflexivity|];
                     split; [destruct en; vm_compute; reflexivity|];
                     split; [vm_compute; reflexivity|];
                     split; [vm_compute; reflexivity|];
                     intros; solve [vm_compute; reflexivity | discriminate] ]
            |]);
    destruct Hrow.
Qed.

Lemma category_menu_buttons_lead_to_filters_witness :
  Callback (lit "filter_price_under50") = Callback (lit "back_to_main")
  \/ exists category_type filter_value d,
       Callback (lit "filter_price_under50") = Callback d
       /\ nth_error (split 95 (lit "category_price")) 1 = Some category_type
       /\ splitn 95 2 d = [lit "filter"; category_type; filter_value]
       /\ route true d = Some apply_filter_handler
       /\ dict_has TAG_MAPPINGS filter_value = true
       /\ dict_has filter_labels filter_value = true
       /\ (category_type = lit "price" ->
           dict_has price_mapping filter_value = true).
Proof.
  apply (@category_menu_buttons_lead_to_filters true (lit "category_price")
           (Screen ([0x1F4B0]%N ++ lit " Select Price Range")
              [ [Button (lit "Under AED50") (Callback (lit "filter_price_under50"))];
                [Button (lit "AED50-150") (Callback (lit "filter_price_50-150"))];
                [Button (lit "AED151-250") (Callback (lit "filter_price_151-250"))];
                [Button (lit "Over AED250") (Callback (lit "filter_price_over250"))];
                [Button ([0x1F519]%N ++ lit " Back to Main Menu")
                        (Callback (lit "back_to_main"))] ])
           [Button (lit "Under AED50") (Callback (lit "filter_price_under50"))]
           (Button (lit "Under AED50") (Callback (lit "filter_price_under50")))).
  - vm_compute. reflexivity.
  - left. reflexivity.
  - left. reflexivity.
Defined.

(** X17: How [main] routes callbacks: data that start with [category_],
    [filter_] or (with the shop enabled) [product_] go to the handler of
    that name; [faq_main] goes to the FAQ menu and any other [faq_...] to
    the FAQ detail; without the shop no handler takes a product token. *)
Theorem route_by_prefix :
  forall (SHOPIFY_ENABLED : bool) (rest : str),
    route SHOPIFY_ENABLED (lit "category_" ++ rest) = Some category_menu_handler
    /\ route SHOPIFY_ENABLED (lit "filter_" ++ rest) = Some apply_filter_handler
    /\ route SHOPIFY_ENABLED (lit "product_" ++ rest)
       = (if SHOPIFY_ENABLED then Some product_detail_handler else None)
    /\ route SHOPIFY_ENABLED (lit "faq_main") = Some faq_main_handler
    /\ (rest <> lit "main" -> rest <> lit "main" ++ [10%N] ->
        route SHOPIFY_ENABLED (lit "faq_" ++ rest) = Some faq_detail_handler)
    /\ route SHOPIFY_ENABLED (lit "back_to_main") = Some back_to_main_handler
    /\ route SHOPIFY_ENABLED (lit "back_to_menu") = Some back_to_menu_handler
    /\ route SHOPIFY_ENABLED (lit "show_all") = Some show_all_products_handler.
Proof.
  intros en rest.
  split; [reflexivity|]. split; [reflexivity|].
  split; [destruct en; reflexivity|]. split; [reflexivity|].
  split; [|split; [reflexivity|split; reflexivity]].
  intros H1 H2.
  apply str_eqb_neq in H1, H2.
  unfold route, callback_handlers.
  cbn [app find fst snd pattern_matches].
  change (starts_with (lit "category_") (lit "faq_" ++ rest)) with false.
  change (starts_with (lit "filter_") (lit "faq_" ++ rest)) with false.
  change (str_eqb (lit "faq_" ++ rest) (lit "back_to_main")) with false.
  change (str_eqb (lit "faq_" ++ rest) (lit "back_to_main" ++ [10%N])) with false.
  change (str_eqb (lit "faq_" ++ rest) (lit "show_all")) with false.
  change (str_eqb (lit "faq_" ++ rest) (lit "show_all" ++ [10%N])) with false.
  change (str_eqb (lit "faq_" ++ rest) (lit "back_to_menu")) with false.
  change (str_eqb (lit "faq_" ++ rest) (lit "back_to_menu" ++ [10%N])) with false.
  change (str_eqb (lit "faq_" ++ rest) (lit "faq_main"))
    with (str_eqb rest (lit "main")).
  change (str_eqb (lit "faq_" ++ rest) (lit "faq_main" ++ [10%N]))
    with (str_eqb rest (lit "main" ++ [10%N])).
  rewrite H1, H2. reflexivity.
Qed.

Lemma route_by_prefix_witness :
  route true (lit "faq_" ++ lit "delivery") = Some faq_detail_handler.
Proof.
  apply (@route_by_prefix true (lit "delivery")); discriminate.
Defined.

Lemma price_loop_error {U : Unicode} (lo hi : bound)
    (products filtered : list product) (e : exn) :
  price_loop lo hi products filtered = inl e -> e = OverflowError.
Proof.
  revert filtered. induction products as [|p rest IH]; intros filtered;
    [discriminate|].
  cbn [price_loop].
  destruct (py_float (product_price p)) as [e'|x] eqn:E.
  - destruct (py_float_error _ E) as [->|[->|[-> _]]];
      [apply IH | apply IH | congruence].
  - destruct (bound_le_float lo x && float_le_bound x hi); apply IH.
Qed.

Lemma filter_products_by_price_error {U : Unicode} (products : list product)
    (price_range : str) (e : exn) :
  filter_products_by_price products price_range = inl e -> e = OverflowError.
Proof.
  unfold filter_products_by_price.
  destruct products as [|p rest]; [discriminate|].
  destruct price_range as [|c r]; [discriminate|].
  destruct (dict_get price_mapping (c :: r) (BInt 0, BInf)) as [lo hi].
  apply price_loop_error.
Qed.

Lemma unguarded_labels_ok {U : Unicode} (products : list product) :
  (forall p, In p products -> exists x, py_float (product_price p) = inr x) ->
  exists ls, unguarded_labels products = inr ls.
Proof.
  induction products as [|p rest IH]; intros H; [exists []; reflexivity|].
  cbn [unguarded_labels].
  destruct (H p (or_introl eq_refl)) as (x & ->).
  destruct IH as (ls & ->); [intros q Hq; apply H; right; exact Hq|].
  eexists. reflexivity.
Qed.

Lemma unguarded_labels_raises {U : Unicode} (products : list product)
    (p : product) (e : exn) :
  In p products -> py_float (product_price p) = inl e ->
  exists e', unguarded_labels products = inl e'.
Proof.
  induction products as [|q rest IH]; intros Hin He; [destruct Hin|].
  cbn [unguarded_labels].
  destruct (py_float (product_price q)) as [e1|x] eqn:E; [eexists; reflexivity|].
  destruct Hin as [->|Hin]; [congruence|].
  destruct (IH Hin He) as (e' & ->). eexists. reflexivity.
Qed.

(** X18: [apply_filter] by price raises nothing but the [OverflowError] of the
    price filter: what the filter keeps has a price that [float] accepts,
    so the unguarded first loop cannot fail.  When no price is an integer
    beyond the range of a float it shows a screen. *)
Theorem apply_filter_by_price_raises_little :
  forall (U : Unicode) (products : list product) (filter_value : str),
    (forall e,
        apply_filter_screen products (lit "filter_price_" ++ filter_value)
        = inl e -> e = OverflowError)
    /\ ((forall p z, In p products -> product_price p = PInt z ->
                     PyFloat.of_int z <> inl OverflowError) ->
        exists scr,
          apply_filter_screen products (lit "filter_price_" ++ filter_value)
          = inr scr).
Proof.
  intros U products v.
  assert (S : splitn 95 2 (lit "filter_price_" ++ v)
              = [lit "filter"; lit "price"; v]).
  { change (lit "filter_price_" ++ v)
      with (lit "filter_" ++ lit "price" ++ lit "_" ++ v).
    apply splitn_filter. intros c Hc. vm_compute in Hc.
    repeat (destruct Hc as [<-|Hc]; [discriminate|]). destruct Hc. }
  unfold apply_filter_screen. rewrite S.
  change (str_eqb (lit "price") (lit "price")) with true. cbv iota.
  destruct (filter_products_by_price products v) as [e0|kept] eqn:Ek.
  - split.
    + intros e [= <-]. eapply filter_products_by_price_error. exact Ek.
    + intros Hok. exfalso.
      pose proof (filter_products_by_price_error _ _ Ek) as ->.
      unfold filter_products_by_price in Ek.
      destruct products as [|p rest]; [discriminate|].
      destruct v as [|c r]; [discriminate|].
      destruct (dict_get price_mapping (c :: r) (BInt 0, BInf)) as [lo hi].
      rewrite (price_loop_filter lo hi (p :: rest) [] Hok) in Ek. discriminate.
  - destruct kept as [|k kept'] eqn:Eq; [split; [discriminate | eexists; reflexivity]|].
    rewrite <- Eq in *.
    destruct (@unguarded_labels_ok U kept) as (ls & ->).
    + intros p Hp.
      destruct (filter_products_by_price_kept _ _ _ Ek Hp) as (_ & _ & x & Hx & _).
      exists x. exact Hx.
    + rewrite Eq. split; [discriminate | eexists; reflexivity].
Qed.

(** X19: [apply_filter] by a tag category is less protected: when one of the
    products that match has a price that [float] rejects, the first,
    unguarded loop raises and no screen is shown, although the second
    loop would have shown the bare title; when every matching product has
    a usable price the screen has one button for each of them, in order. *)
Theorem apply_filter_by_tag_may_raise :
  forall (U : Unicode) (products : list product)
         (category_type filter_value : str),
    (forall c, In c category_type -> c <> 95%N) ->
    category_type <> lit "price" ->
    let data := lit "filter_" ++ category_type ++ lit "_" ++ filter_value in
    let matching := filter_products_by_tag products filter_value in
    (forall p e,
        In p matching -> py_float (product_price p) = inl e ->
        exists e', apply_filter_screen products data = inl e')
    /\ ((forall p, In p matching ->
           exists x, py_float (product_price p) = inr x) ->
        exists scr,
          apply_filter_screen products data = inr scr
          /\ (matching <> [] ->
              keyboard scr = map (fun p => [product_button p]) matching)).
Proof.
  intros U products ct v Hct Hne data matching. subst data.
  unfold apply_filter_screen. rewrite (@splitn_filter ct v Hct).
  replace (str_eqb ct (lit "price")) with false
    by (symmetry; apply str_eqb_neq; exact Hne).
  fold matching. split.
  - intros p e Hin He.
    destruct matching as [|m ms] eqn:Em; [destruct Hin|].
    destruct (unguarded_labels_raises _ _ Hin He) as (e' & ->).
    eexists. reflexivity.
  - intros Hok. destruct matching as [|m ms] eqn:Em.
    + eexists. split; [reflexivity | congruence].
    + destruct (unguarded_labels_ok _ Hok) as (ls & ->).
      eexists. split; [reflexivity | reflexivity].
Qed.

Lemma apply_filter_by_tag_may_raise_witness :
  exists e',
    @apply_filter_screen ascii_tables
      [Product (lit "rose") (lit "Rose") (Some (TagStr (lit "roses"))) (Some PNone)]
      (lit "filter_" ++ lit "flowers" ++ lit "_" ++ lit "roses")
    = inl e'.
Proof.
  refine (proj1 (@apply_filter_by_tag_may_raise ascii_tables
           [Product (lit "rose") (lit "Rose") (Some (TagStr (lit "roses"))) (Some PNone)]
           (lit "flowers") (lit "roses") _ _)
           (Product (lit "rose") (lit "Rose") (Some (TagStr (lit "roses"))) (Some PNone))
           TypeError _ _).
  - intros c Hc. vm_compute in Hc.
    repeat (destruct Hc as [<-|Hc]; [discriminate|]). destruct Hc.
  - discriminate.
  - vm_compute. left. reflexivity.
  - reflexivity.
Defined.

Lemma route_product_token (x : str) :
  route true (lit "product" ++ lit "_" ++ x) = Some product_detail_handler.
Proof. reflexivity. Qed.

Lemma safe_callback_data_shape (prefix data : str) :
  exists x, safe_callback_data prefix data = prefix ++ lit "_" ++ x.
Proof.
  unfold safe_callback_data.
  destruct (len data <=? 64 - len prefix - 1)%Z; eexists; reflexivity.
Qed.

(** X20: The list of all bouquets has one row for each cached product, in
    order, and a last row that goes back to the main menu.  Each product
    button carries the token that [safe_callback_data] makes of the
    handle; that token goes to [product_detail] and, when the handle is
    ASCII, is at most 64 octets long. *)
Theorem show_all_products_buttons :
  forall (U : Unicode) (products : list product),
    products <> [] ->
    keyboard (show_all_products_screen products)
    = map (fun p => [product_button p]) products
      ++ [[Button ([0x1F519]%N ++ lit " Back to Main Menu")
                  (Callback (lit "back_to_main"))]]
    /\ length (keyboard (show_all_products_screen products))
       = S (length products)
    /\ forall p, In p products ->
         exists token,
           press (product_button p) = Callback token
           /\ token = safe_callback_data (lit "product") (handle p)
           /\ route true token = Some product_detail_handler
           /\ (is_ascii (handle p) = true ->
               (length (encode token) <= 64)%nat).
Proof.
  intros U products Hne. destruct products as [|p0 rest]; [congruence|].
  split; [reflexivity|]. split.
  - cbn [show_all_products_screen keyboard]. rewrite length_app, length_map.
    cbn [length]. lia.
  - intros p _. eexists. split; [reflexivity|]. split; [reflexivity|]. split.
    + destruct (safe_callback_data_shape (lit "product") (handle p)) as (x & ->).
      apply route_product_token.
    + intros Ha.
      pose proof (@safe_callback_data_ascii_fits (lit "product") (handle p)
                    eq_refl Ha) as H.
      assert (len (lit "product") <= 55)%Z by (vm_compute; discriminate).
      specialize (H H0). lia.
Qed.

Lemma show_all_products_buttons_witness :
  length (keyboard (@show_all_products_screen ascii_tables [red_rose; long_rose]))
  = 3%nat.
Proof.
  apply (@show_all_products_buttons ascii_tables [red_rose; long_rose]).
  discriminate.
Defined.

(* ================================================================== *)
(** * The main menu and the FAQ *)
(* ================================================================== *)

Lemma starts_with_app (s data : str) :
  starts_with s data = true -> exists rest, data = s ++ rest.
Proof.
  revert data. induction s as [|c s IH]; intros data H.
  - exists data. reflexivity.
  - destruct data as [|d data]; [discriminate|].
    cbn [starts_with] in H. apply andb_true_iff in H. destruct H as [Hc Hs].
    apply N.eqb_eq in Hc. subst d.
    destruct (IH _ Hs) as (rest & ->). exists rest. reflexivity.
Qed.

Lemma split_nonempty (c : N) (s : str) : split c s <> [].
Proof.
  destruct s as [|x s]; cbn [split]; [discriminate|].
  destruct (x =? c)%N; [discriminate|].
  destruct (split c s); discriminate.
Qed.

Lemma split_field (field rest : str) :
  (forall c, In c field -> c <> 95%N) ->
  split 95 (field ++ 95%N :: rest) = field :: split 95 rest.
Proof.
  induction field as [|x field IH]; intros H.
  - reflexivity.
  - cbn [app split].
    replace (x =? 95)%N with false
      by (symmetry; apply N.eqb_neq; apply H; left; reflexivity).
    rewrite IH by (intros c Hc; apply H; right; exact Hc). reflexivity.
Qed.

(** The second field of data that start with [field_]. *)
Lemma split_second (field rest : str) :
  (forall c, In c field -> c <> 95%N) ->
  exists key more,
    split 95 (field ++ 95%N :: rest) = field :: key :: more
    /\ split 95 rest = key :: more.
Proof.
  intros H. rewrite (@split_field field rest H).
  destruct (split 95 rest) as [|key more] eqn:E;
    [destruct (split_nonempty _ _ E)|].
  exists key, more. split; reflexivity.
Qed.

Lemma route_category_menu (SHOPIFY_ENABLED : bool) (data : str) :
  route SHOPIFY_ENABLED data = Some category_menu_handler ->
  starts_with (lit "category_") data = true.
Proof.
  unfold route.
  destruct SHOPIFY_ENABLED;
    cbv [callback_handlers app find fst snd pattern_matches option_map];
    repeat match goal with
           | |- context [if ?b then _ else _] => destruct b eqn:?
           end;
    try discriminate; intros _; reflexivity.
Qed.

Lemma route_faq_detail (SHOPIFY_ENABLED : bool) (data : str) :
  route SHOPIFY_ENABLED data = Some faq_detail_handler ->
  starts_with (lit "faq_") data = true.
Proof.
  unfold route.
  destruct SHOPIFY_ENABLED;
    cbv [callback_handlers app find fst snd pattern_matches option_map];
    repeat match goal with
           | |- context [if ?b then _ else _] => destruct b eqn:?
           end;
    try discriminate; intros _; reflexivity.
Qed.

Lemma no_underscore_category : forall c, In c (lit "category") -> c <> 95%N.
Proof.
  intros c Hc. vm_compute in Hc.
  repeat (destruct Hc as [<-|Hc]; [discriminate|]). destruct Hc.
Qed.

Lemma no_underscore_faq : forall c, In c (lit "faq") -> c <> 95%N.
Proof.
  intros c Hc. vm_compute in Hc.
  repeat (destruct Hc as [<-|Hc]; [discriminate|]). destruct Hc.
Qed.

(** X21: The two handlers that index the split callback data never meet the
    [IndexError]: whatever [main] routes to [category_menu] or to
    [faq_detail] has a second field, so a screen is shown.  Only that
    second field counts: what follows a further underscore is ignored. *)
Theorem routed_data_have_their_field :
  forall (SHOPIFY_ENABLED : bool) (WHATSAPP_NUMBER data : str),
    (route SHOPIFY_ENABLED data = Some category_menu_handler ->
     exists scr, category_menu_screen data = Some scr)
    /\ (route SHOPIFY_ENABLED data = Some faq_detail_handler ->
        exists scr, faq_detail_screen WHATSAPP_NUMBER data = Some scr)
    /\ (forall key tail,
          (forall c, In c key -> c <> 95%N) ->
          category_menu_screen (lit "category_" ++ key ++ lit "_" ++ tail)
          = category_menu_screen (lit "category_" ++ key)
          /\ faq_detail_screen WHATSAPP_NUMBER
               (lit "faq_" ++ key ++ lit "_" ++ tail)
             = faq_detail_screen WHATSAPP_NUMBER (lit "faq_" ++ key)).
Proof.
  intros e wn data. split; [|split].
  - intros H. apply route_category_menu in H.
    destruct (starts_with_app _ _ H) as (rest & ->).
    change (lit "category_" ++ rest) with (lit "category" ++ 95%N :: rest).
    destruct (@split_second (lit "category") rest no_underscore_category)
      as (key & more & E & _).
    unfold category_menu_screen. rewrite E. eexists. reflexivity.
  - intros H. apply route_faq_detail in H.
    destruct (starts_with_app _ _ H) as (rest & ->).
    change (lit "faq_" ++ rest) with (lit "faq" ++ 95%N :: rest).
    destruct (@split_second (lit "faq") rest no_underscore_faq)
      as (key & more & E & _).
    unfold faq_detail_screen. rewrite E. eexists. reflexivity.
  - intros key tail Hk.
    assert (E1 : split 95 (key ++ lit "_" ++ tail) = key :: split 95 tail)
      by (apply (@split_field key tail Hk)).
    assert (E2 : split 95 key = [key]).
    { clear E1. induction key as [|x key IH]; [reflexivity|].
      cbn [split].
      replace (x =? 95)%N with false
        by (symmetry; apply N.eqb_neq; apply Hk; left; reflexivity).
      rewrite IH by (intros c Hc; apply Hk; right; exact Hc). reflexivity. }
    split.
    + unfold category_menu_screen.
      change (lit "category_" ++ key ++ lit "_" ++ tail)
        with (lit "category" ++ 95%N :: (key ++ lit "_" ++ tail)).
      change (lit "category_" ++ key) with (lit "category" ++ 95%N :: key).
      rewrite !(@split_field (lit "category") _ no_underscore_category).
      rewrite E1, E2. reflexivity.
    + unfold faq_detail_screen.
      change (lit "faq_" ++ key ++ lit "_" ++ tail)
        with (lit "faq" ++ 95%N :: (key ++ lit "_" ++ tail)).
      change (lit "faq_" ++ key) with (lit "faq" ++ 95%N :: key).
      rewrite !(@split_field (lit "faq") _ no_underscore_faq).
      rewrite E1, E2. reflexivity.
Qed.

(** X22: Every button of the FAQ menu either goes back to the main menu or
    names a question of [FAQ_DATA]: its data go to [faq_detail], never to
    [faq_main], and [faq_detail] finds the entry and shows that question
    with its answer, with a button back to the FAQ menu.  So "Question not
    found" is never the answer to a button of the menu. *)
Theorem faq_main_buttons_find_their_answers :
  forall (SHOPIFY_ENABLED : bool) (WHATSAPP_NUMBER : str)
         (row : list button) (b : button),
    In row (keyboard (faq_main_screen WHATSAPP_NUMBER)) -> In b row ->
    press b = Callback (lit "back_to_main")
    \/ exists key question answer d scr,
         press b = Callback d /\ d = lit "faq_" ++ key
         /\ label b = question
         /\ dict_find (FAQ_DATA WHATSAPP_NUMBER) key = Some (question, answer)
         /\ route SHOPIFY_ENABLED d = Some faq_detail_handler
         /\ faq_detail_screen WHATSAPP_NUMBER d = Some scr
         /\ text scr = lit "*" ++ question ++ lit "*" ++ [10; 10]%N ++ answer
         /\ In [Button ([0x1F519]%N ++ lit " Back to FAQ")
                       (Callback (lit "faq_main"))] (keyboard scr)
         /\ route SHOPIFY_ENABLED (lit "faq_main") = Some faq_main_handler.
Proof.
  intros e wn row b Hrow Hb.
  cbn [faq_main_screen keyboard FAQ_DATA map app fst snd In] in Hrow.
  repeat (destruct Hrow as [<-|Hrow];
          [destruct Hb as [<-|[]];
           first [ left; reflexivity
                 | right; destruct e;
                   eexists _, _, _, _, _;
                   (split; [reflexivity|]); (split; [reflexivity|]);
                   (split; [reflexivity|]); (split; [reflexivity|]);
                   (split; [reflexivity|]); (split; [reflexivity|]);
                   (split; [reflexivity|]);
                   (split; [left; reflexivity | reflexivity]) ]
          |]).
  destruct Hrow.
Qed.

Lemma faq_main_buttons_find_their_answers_witness :
  press (Button ([0x1F33C]%N ++ lit " Flower Care Tips")
                (Callback (lit "faq_care")))
  = Callback (lit "back_to_main")
  \/ exists key question answer d scr,
       press (Button ([0x1F33C]%N ++ lit " Flower Care Tips")
                     (Callback (lit "faq_care"))) = Callback d
       /\ d = lit "faq_" ++ key
       /\ label (Button ([0x1F33C]%N ++ lit " Flower Care Tips")
                        (Callback (lit "faq_care"))) = question
       /\ dict_find (FAQ_DATA (lit "+971500000000")) key
          = Some (question, answer)
       /\ route true d = Some faq_detail_handler
       /\ faq_detail_screen (lit "+971500000000") d = Some scr
       /\ text scr = lit "*" ++ question ++ lit "*" ++ [10; 10]%N ++ answer
       /\ In [Button ([0x1F519]%N ++ lit " Back to FAQ")
                     (Callback (lit "faq_main"))] (keyboard scr)
       /\ route true (lit "faq_main") = Some faq_main_handler.
Proof.
  apply (@faq_main_buttons_find_their_answers true (lit "+971500000000")
           [Button ([0x1F33C]%N ++ lit " Flower Care Tips")
                   (Callback (lit "faq_care"))]).
  - right; right; left. reflexivity.
  - left. reflexivity.
Defined.

(** X23: No button of the main menu is dead: each one opens a link or sends
    data that [main] routes to a handler, and the three category buttons
    open a menu that [category_menu] knows, with its options.  The menu of
    [back_to_main] is the menu of [start] without its last row, the FAQ
    button: once back in the main menu the FAQ cannot be reached by a
    button. *)
Theorem main_menu_buttons_are_routed :
  forall (SHOPIFY_ENABLED : bool)
         (WHATSAPP_NUMBER INSTAGRAM_USERNAME first_name : str),
    (forall row b,
        In row (keyboard (start_screen WHATSAPP_NUMBER INSTAGRAM_USERNAME
                                       first_name)) ->
        In b row ->
        (exists url, press b = Url url)
        \/ exists d h,
             press b = Callback d /\ route SHOPIFY_ENABLED d = Some h
             /\ (h = category_menu_handler ->
                 exists scr,
                   category_menu_screen d = Some scr
                   /\ (4 < length (keyboard scr))%nat))
    /\ keyboard (start_screen WHATSAPP_NUMBER INSTAGRAM_USERNAME first_name)
       = keyboard (back_to_main_screen WHATSAPP_NUMBER INSTAGRAM_USERNAME
                                       first_name)
         ++ [[Button ([0x2753]%N ++ lit " FAQ") (Callback (lit "faq_main"))]]
    /\ (forall row b,
          In row (keyboard (back_to_main_screen WHATSAPP_NUMBER
                              INSTAGRAM_USERNAME first_name)) ->
          In b row ->
          forall d, press b = Callback d ->
                    route SHOPIFY_ENABLED d <> Some faq_main_handler
                    /\ route SHOPIFY_ENABLED d <> Some faq_detail_handler).
Proof.
  intros e wn ig fn. split; [|split].
  - intros row b Hrow Hb.
    cbn [start_screen keyboard In] in Hrow.
    repeat (destruct Hrow as [<-|Hrow];
            [cbn [In] in Hb;
             repeat (destruct Hb as [<-|Hb];
                     [first [ left; eexists; reflexivity
                            | right; destruct e; eexists _, _;
                              (split; [reflexivity|]);
                              (split; [reflexivity|]);
                              first [ discriminate
                                    | intros _; eexists;
                                      split; [reflexivity | cbv; lia] ] ]
                     |]);
             destruct Hb
            |]).
    destruct Hrow.
  - reflexivity.
  - intros row b Hrow Hb d Hd.
    cbn [back_to_main_screen keyboard In] in Hrow.
    repeat (destruct Hrow as [<-|Hrow];
            [cbn [In] in Hb;
             repeat (destruct Hb as [<-|Hb];
                     [first [ discriminate Hd
                            | injection Hd as <-; destruct e;
                              split; discriminate ]
                     |]);
             destruct Hb
            |]).
    destruct Hrow.
Qed.

Lemma main_menu_buttons_are_routed_witness :
  exists scr,
    category_menu_screen (lit "category_occasion") = Some scr
    /\ (4 < length (keyboard scr))%nat.
Proof.
  destruct (proj1 (@main_menu_buttons_are_routed true (lit "+971500000000")
                     (lit "prosto") (lit "Ann"))
              [Button ([0x1F389]%N ++ lit " Filter by Occasion")
                      (Callback (lit "category_occasion"))]
              (Button ([0x1F389]%N ++ lit " Filter by Occasion")
                      (Callback (lit "category_occasion")))
              (or_intror (or_introl eq_refl)) (or_introl eq_refl))
    as [(url & Hu)|(d & h & Hd & Hr & Hc)].
  - discriminate Hu.
  - injection Hd as <-. apply Hc.
    vm_compute in Hr. injection Hr as <-. reflexivity.
Defined.

(* ================================================================== *)
(** * The product lists and the product details *)
(* ================================================================== *)

Lemma valid_loop_filter (edges valid_products : list listed_node) :
  valid_loop edges valid_products = valid_products ++ filter listed_ok edges.
Proof.
  revert valid_products. induction edges as [|n rest IH]; intros acc.
  - cbn [valid_loop filter]. rewrite app_nil_r. reflexivity.
  - cbn [valid_loop filter]. fold (listed_ok n). destruct (listed_ok n).
    + rewrite IH, <- app_assoc. reflexivity.
    + apply IH.
Qed.

Lemma get_shopify_products_ok (SHOPIFY_ENABLED : bool)
    (reply : listing_response) (n : listed_node) :
  In n (get_shopify_products SHOPIFY_ENABLED reply) -> listed_ok n = true.
Proof.
  unfold get_shopify_products.
  destruct SHOPIFY_ENABLED; [|intros []].
  destruct reply as [|nodes]; [intros []|].
  cbn [negb]. rewrite valid_loop_filter. cbn [app].
  intros H. apply filter_In in H. apply H.
Qed.

Lemma products_loop_all (products : list listed_node)
    (keyboard : list (list button)) (available_count : Z) :
  (forall n, In n products -> listed_ok n = true) ->
  products_loop products keyboard available_count
  = (keyboard ++ map (fun n => [listed_button n]) products,
     (available_count + Z.of_nat (length products))%Z).
Proof.
  revert keyboard available_count.
  induction products as [|n rest IH]; intros kb c H.
  - cbn [products_loop map length]. rewrite app_nil_r. f_equal. lia.
  - cbn [products_loop].
    pose proof (H n (or_introl eq_refl)) as Hn.
    unfold listed_ok in Hn. apply andb_true_iff in Hn. destruct Hn as [-> ->].
    cbn [negb orb].
    rewrite IH by (intros m Hm; apply H; right; exact Hm).
    cbn [map length]. rewrite <- app_assoc. cbn [app]. f_equal. lia.
Qed.

Lemma back_to_menu_loop_all (products_list : list listed_node)
    (keyboard : list (list button)) :
  (forall n, In n products_list -> listed_ok n = true) ->
  back_to_menu_loop products_list keyboard
  = keyboard ++ map (fun n => [listed_button n]) products_list.
Proof.
  revert keyboard. induction products_list as [|n rest IH]; intros kb H.
  - cbn [back_to_menu_loop map]. rewrite app_nil_r. reflexivity.
  - cbn [back_to_menu_loop].
    pose proof (H n (or_introl eq_refl)) as Hn.
    unfold listed_ok in Hn. apply andb_true_iff in Hn. destruct Hn as [_ ->].
    cbn [negb].
    rewrite IH by (intros m Hm; apply H; right; exact Hm).
    cbn [map]. rewrite <- app_assoc. reflexivity.
Qed.

(** X24: The two product lists check again what [get_shopify_products] has
    checked already, so the second check skips nothing: when the shop's
    list is not empty both show one button for each of its products, in
    order, and the message "No available products found" of either
    handler can never be shown. *)
Theorem listing_second_check_skips_nothing :
  forall (SHOPIFY_ENABLED : bool) (reply : listing_response),
    let listed := get_shopify_products SHOPIFY_ENABLED reply in
    (forall n, In n listed ->
       eq_str (listed_status n) (lit "ACTIVE") = true
       /\ truthy (listed_url n) = true)
    /\ (listed <> [] ->
        keyboard (products_screen SHOPIFY_ENABLED reply)
        = map (fun n => [listed_button n]) listed
        /\ keyboard (back_to_menu_screen SHOPIFY_ENABLED reply)
           = map (fun n => [listed_button n]) listed
             ++ [[Button ([0x1F3E0]%N ++ lit " Main Menu")
                         (Callback (lit "back_to_main"));
                  Button ([0x1F504]%N ++ lit " Refresh")
                         (Callback (lit "back_to_menu"))]])
    /\ text (products_screen SHOPIFY_ENABLED reply)
       <> [0x274C]%N
          ++ lit " No available products found. Please check back later!"
    /\ text (back_to_menu_screen SHOPIFY_ENABLED reply)
       <> [0x274C]%N ++ lit " No available products found.".
Proof.
  intros e reply listed.
  assert (Hok : forall n, In n listed -> listed_ok n = true)
    by (intros n; apply get_shopify_products_ok).
  split.
  { intros n Hn. apply andb_true_iff. apply (Hok n Hn). }
  unfold products_screen, back_to_menu_screen.
  destruct e; cbn [negb];
    [|split; [intros H; exfalso; apply H; reflexivity
             | split; discriminate]].
  fold listed. destruct listed as [|n0 rest] eqn:El.
  { split; [congruence | split; discriminate]. }
  rewrite <- El in *.
  rewrite (@products_loop_all listed [] 0%Z Hok).
  rewrite (@back_to_menu_loop_all listed [] Hok).
  cbn [app Z.add].
  assert (Hlen : (Z.of_nat (length listed) =? 0)%Z = false)
    by (rewrite El; cbn [length]; apply Z.eqb_neq; lia).
  rewrite Hlen.
  assert (Hmap : map (fun n => [listed_button n]) listed
                 = [listed_button n0]
                   :: map (fun n => [listed_button n]) rest)
    by (rewrite El; reflexivity).
  rewrite Hmap. cbn [keyboard text app].
  split; [intros _; split; reflexivity | split; discriminate].
Qed.

Lemma length_encode_ge (s : str) : (length s <= length (encode s))%nat.
Proof.
  induction s as [|c s IH]; [apply le_n|].
  change (encode (c :: s)) with (utf8_char c ++ encode s).
  rewrite length_app. cbn [length].
  assert (1 <= length (utf8_char c))%nat.
  { unfold utf8_char.
    destruct (c <? 128)%N; [cbn [length]; lia|].
    destruct (c <? 2048)%N; [cbn [length]; lia|].
    destruct (c <? 65536)%N; cbn [length]; lia. }
  lia.
Qed.

(** X25: The buttons of the two product lists carry the handle as it is,
    without [safe_callback_data]: their data go to [product_detail] and
    are what [safe_callback_data] would give as long as the handle has at
    most 56 characters, but for every longer handle they are more than 64
    octets long. *)
Theorem listed_button_is_unguarded :
  forall (n : listed_node),
    exists token,
      press (listed_button n) = Callback token
      /\ route true token = Some product_detail_handler
      /\ callback_payload token = Some (listed_handle n)
      /\ ((len (listed_handle n) <= 56)%Z ->
          token = safe_callback_data (lit "product") (listed_handle n))
      /\ ((56 < len (listed_handle n))%Z ->
          (64 < length (encode token))%nat
          /\ token <> safe_callback_data (lit "product") (listed_handle n)).
Proof.
  intros n. exists (lit "product_" ++ listed_handle n).
  split; [reflexivity|]. split; [reflexivity|]. split.
  { change (lit "product_" ++ listed_handle n)
      with (lit "product" ++ 95%N :: listed_handle n).
    apply callback_payload_prefix. intros c Hc. vm_compute in Hc.
    repeat (destruct Hc as [<-|Hc]; [discriminate|]). destruct Hc. }
  unfold safe_callback_data.
  change (64 - len (lit "product") - 1)%Z with 56%Z.
  split.
  - intros H. apply Z.leb_le in H. rewrite H. reflexivity.
  - intros H. split.
    + pose proof (length_encode_ge (lit "product_" ++ listed_handle n)) as L.
      rewrite length_app in L.
      change (length (lit "product_")) with 8%nat in L.
      unfold len in H. lia.
    + replace (len (listed_handle n) <=? 56)%Z with false
        by (symmetry; apply Z.leb_gt; exact H).
      change (lit "product_" ++ listed_handle n)
        with (lit "product" ++ lit "_" ++ listed_handle n).
      intros E. apply app_inv_head in E. apply app_inv_head in E.
      pose proof (hash_id_length (listed_handle n)) as L8.
      rewrite <- E in L8. unfold len in H. lia.
Qed.

(* ------------------------------------------------------------------ *)

Lemma has_underscore_split (data : str) :
  has_underscore data = true ->
  exists prefix payload,
    data = prefix ++ 95%N :: payload
    /\ (forall c, In c prefix -> c <> 95%N).
Proof.
  induction data as [|x data IH]; [discriminate|].
  unfold has_underscore. cbn [existsb].
  destruct (95 =? x)%N eqn:E.
  - intros _. apply N.eqb_eq in E. subst x.
    exists [], data. split; [reflexivity | intros c []].
  - cbn [orb]. intros H. destruct (IH H) as (prefix & payload & -> & Hp).
    exists (x :: prefix), payload. split; [reflexivity|].
    intros c [<-|Hc]; [apply N.eqb_neq in E; congruence | apply Hp; exact Hc].
Qed.

Lemma lookup_product_found (payload : str) (cached : list product)
    (p : product) :
  lookup_product payload cached = Some p ->
  In p cached
  /\ (length payload <> 8%nat -> handle p = payload)
  /\ (length payload = 8%nat -> hash_id (handle p) = payload).
Proof.
  unfold lookup_product, len.
  destruct (Z.of_nat (length payload) =? 8)%Z eqn:E; intros H;
    apply find_some in H; destruct H as [Hin Heq];
    apply str_eqb_eq in Heq.
  - apply Z.eqb_eq in E. split; [exact Hin|]. split; [lia | intros _; exact Heq].
  - apply Z.eqb_neq in E. split; [exact Hin|]. split; [intros _; exact Heq | lia].
Qed.

Lemma product_detail_outcome_split (shop : str -> detail_response)
    (cached : list product) (prefix payload : str) :
  (forall c, In c prefix -> c <> 95%N) ->
  product_detail_outcome true shop cached (prefix ++ 95%N :: payload)
  = match shop payload with
    | DetEdges (node :: _) =>
        match detail_variants node with
        | [] => Raises
        | shop_price :: _ =>
            match lookup_product payload cached with
            | None => NotInCache
            | Some cached_product =>
                Details (detail_title node) shop_price cached_product
            end
        end
    | _ => NotInShop
    end.
Proof.
  intros Hp. unfold product_detail_outcome, get_shopify_product_with_tags.
  cbn [negb].
  assert (Hu : has_underscore (prefix ++ 95%N :: payload) = true).
  { unfold has_underscore. apply existsb_exists. exists 95%N.
    split; [apply in_or_app; right; left; reflexivity | reflexivity]. }
  rewrite Hu. cbn [negb].
  unfold callback_payload. rewrite (@split1_prefix prefix payload Hp).
  destruct (shop payload) as [|[|node nodes]]; reflexivity.
Qed.

(** X26: What it takes for [product_detail] to show a product: the callback
    data have a payload after their first underscore, the shop answers
    the query for that payload with a node that has a price, and the
    lookup finds a cached product.  Title and price shown are those of
    the shop's first node; the cached product has the payload as handle,
    except for a payload of 8 characters, where it is a product whose
    digest is the payload. *)
Theorem product_detail_shows_what_shop_and_cache_know :
  forall (SHOPIFY_ENABLED : bool) (shop : str -> detail_response)
         (cached : list product) (data shown_title : str)
         (shown_price : pyval) (p : product),
    product_detail_outcome SHOPIFY_ENABLED shop cached data
    = Details shown_title shown_price p ->
    SHOPIFY_ENABLED = true
    /\ exists prefix payload node nodes prices,
         data = prefix ++ lit "_" ++ payload
         /\ (forall c, In c prefix -> c <> 95%N)
         /\ shop payload = DetEdges (node :: nodes)
         /\ detail_title node = shown_title
         /\ detail_variants node = shown_price :: prices
         /\ In p cached
         /\ lookup_product payload cached = Some p
         /\ (length payload <> 8%nat -> handle p = payload)
         /\ (length payload = 8%nat -> hash_id (handle p) = payload).
Proof.
  intros e shop cached data t v p H.
  destruct e; [|discriminate H]. split; [reflexivity|].
  destruct (has_underscore data) eqn:Hu;
    [|unfold product_detail_outcome in H; rewrite Hu in H; discriminate H].
  destruct (has_underscore_split _ Hu) as (prefix & payload & -> & Hp).
  rewrite (@product_detail_outcome_split shop cached prefix payload Hp) in H.
  destruct (shop payload) as [|[|node nodes]] eqn:Es; try discriminate H.
  destruct (detail_variants node) as [|v0 prices] eqn:Ev; [discriminate H|].
  destruct (lookup_product payload cached) as [q|] eqn:El; [|discriminate H].
  injection H as <- <- <-.
  destruct (lookup_product_found _ _ El) as (Hin & Hne & Heq).
  exists prefix, payload, node, nodes, prices.
  repeat (split; [first [reflexivity | assumption]|]). exact Heq.
Qed.

Lemma product_detail_shows_what_shop_and_cache_know_witness :
  exists prefix payload node nodes prices,
    lit "product_red-roses" = prefix ++ lit "_" ++ payload
    /\ (forall c, In c prefix -> c <> 95%N)
    /\ (fun _ => DetEdges [DetailNode (lit "Red roses") [PStr (lit "49.99")]])
         payload
       = DetEdges (node :: nodes)
    /\ detail_title node = lit "Red roses"
    /\ detail_variants node = PStr (lit "49.99") :: prices
    /\ In (Product (lit "red-roses") (lit "Red roses") None None)
          [Product (lit "red-roses") (lit "Red roses") None None]
    /\ lookup_product payload
         [Product (lit "red-roses") (lit "Red roses") None None]
       = Some (Product (lit "red-roses") (lit "Red roses") None None)
    /\ (length payload <> 8%nat ->
        handle (Product (lit "red-roses") (lit "Red roses") None None)
        = payload)
    /\ (length payload = 8%nat ->
        hash_id (handle (Product (lit "red-roses") (lit "Red roses")
                                 None None))
        = payload).
Proof.
  apply (@product_detail_shows_what_shop_and_cache_know true
           (fun _ => DetEdges [DetailNode (lit "Red roses") [PStr (lit "49.99")]])
           [Product (lit "red-roses") (lit "Red roses") None None]
           (lit "product_red-roses") (lit "Red roses") (PStr (lit "49.99"))
           (Product (lit "red-roses") (lit "Red roses") None None)).
  vm_compute. reflexivity.
Defined.

Lemma route_product_detail (SHOPIFY_ENABLED : bool) (data : str) :
  route SHOPIFY_ENABLED data = Some product_detail_handler ->
  SHOPIFY_ENABLED = true /\ starts_with (lit "product_") data = true.
Proof.
  unfold route.
  destruct SHOPIFY_ENABLED;
    cbv [callback_handlers app find fst snd pattern_matches option_map];
    repeat match goal with
           | |- context [if ?b then _ else _] => destruct b eqn:?
           end;
    try discriminate; intros _; split; reflexivity.
Qed.

(** X27: For the data that [main] routes to it, [product_detail] never
    answers "Invalid product request" or "Product details unavailable":
    both tests for an underscore are dead there.  It asks the shop for
    what follows [product_], and the one exception that can leave it
    before the message is sent comes from a node without a variant. *)
Theorem routed_product_data_are_valid :
  forall (SHOPIFY_ENABLED : bool) (shop : str -> detail_response)
         (cached : list product) (data : str),
    route SHOPIFY_ENABLED data = Some product_detail_handler ->
    exists payload,
      data = lit "product_" ++ payload
      /\ product_detail_outcome SHOPIFY_ENABLED shop cached data
         <> InvalidRequest
      /\ product_detail_outcome SHOPIFY_ENABLED shop cached data
         <> DetailsUnavailable
      /\ (get_shopify_product_with_tags SHOPIFY_ENABLED (shop payload) = None ->
          product_detail_outcome SHOPIFY_ENABLED shop cached data = NotInShop)
      /\ (product_detail_outcome SHOPIFY_ENABLED shop cached data = Raises ->
          exists node nodes,
            shop payload = DetEdges (node :: nodes)
            /\ detail_variants node = []).
Proof.
  intros e shop cached data H.
  apply route_product_detail in H. destruct H as [-> H].
  destruct (starts_with_app _ _ H) as (payload & ->).
  exists payload. split; [reflexivity|].
  change (lit "product_" ++ payload) with (lit "product" ++ 95%N :: payload).
  assert (Hp : forall c, In c (lit "product") -> c <> 95%N).
  { intros c Hc. vm_compute in Hc.
    repeat (destruct Hc as [<-|Hc]; [discriminate|]). destruct Hc. }
  rewrite (@product_detail_outcome_split shop cached (lit "product") payload Hp).
  unfold get_shopify_product_with_tags. cbn [negb].
  destruct (shop payload) as [|[|node nodes]].
  - repeat (split; [first [discriminate | reflexivity]|]). discriminate.
  - repeat (split; [first [discriminate | reflexivity]|]). discriminate.
  - destruct (detail_variants node) as [|v vs] eqn:Ev.
    + split; [discriminate|]. split; [discriminate|].
      split; [discriminate|]. intros _. exists node, nodes.
      split; [reflexivity | exact Ev].
    + destruct (lookup_product payload cached);
        (split; [discriminate|]); (split; [discriminate|]);
        (split; [discriminate|]); discriminate.
Qed.

Lemma routed_product_data_are_valid_witness :
  exists payload,
    lit "product_red-roses" = lit "product_" ++ payload
    /\ product_detail_outcome true (fun _ => DetFailed) [] (lit "product_red-roses")
       <> InvalidRequest
    /\ product_detail_outcome true (fun _ => DetFailed) [] (lit "product_red-roses")
       <> DetailsUnavailable
    /\ (get_shopify_product_with_tags true ((fun _ => DetFailed) payload) = None ->
        product_detail_outcome true (fun _ => DetFailed) []
          (lit "product_red-roses") = NotInShop)
    /\ (product_detail_outcome true (fun _ => DetFailed) []
          (lit "product_red-roses") = Raises ->
        exists node nodes,
          (fun _ => DetFailed) payload = DetEdges (node :: nodes)
          /\ detail_variants node = []).
Proof.
  apply (@routed_product_data_are_valid true (fun _ => DetFailed) []
           (lit "product_red-roses")).
  reflexivity.
Defined.

(** X28: A handle of more than 56 characters cannot be shown through its own
    token: [safe_callback_data] puts the digest into the token and
    [product_detail] asks the shop for a product whose handle is that
    digest.  Unless the shop answers that query the reply is "Product not
    found in our system", whatever the cache holds; when it does answer,
    title and price are those of the shop's node for the digest. *)
Theorem product_detail_asks_shop_for_digest :
  forall (shop : str -> detail_response) (cached : list product)
         (long_handle : str),
    (56 < len long_handle)%Z ->
    let token := safe_callback_data (lit "product") long_handle in
    (get_shopify_product_with_tags true (shop (hash_id long_handle)) = None ->
     product_detail_outcome true shop cached token = NotInShop)
    /\ (forall shown_title shown_price p,
          product_detail_outcome true shop cached token
          = Details shown_title shown_price p ->
          exists node nodes prices,
            shop (hash_id long_handle) = DetEdges (node :: nodes)
            /\ detail_title node = shown_title
            /\ detail_variants node = shown_price :: prices
            /\ hash_id (handle p) = hash_id long_handle).
Proof.
  intros shop cached h Hlong token. subst token.
  unfold safe_callback_data.
  change (64 - len (lit "product") - 1)%Z with 56%Z.
  replace (len h <=? 56)%Z with false by (symmetry; apply Z.leb_gt; exact Hlong).
  change (lit "product" ++ lit "_" ++ hash_id h)
    with (lit "product" ++ 95%N :: hash_id h).
  assert (Hp : forall c, In c (lit "product") -> c <> 95%N).
  { intros c Hc. vm_compute in Hc.
    repeat (destruct Hc as [<-|Hc]; [discriminate|]). destruct Hc. }
  rewrite (@product_detail_outcome_split shop cached (lit "product")
             (hash_id h) Hp).
  unfold get_shopify_product_with_tags. cbn [negb].
  destruct (shop (hash_id h)) as [|[|node nodes]].
  - split; [reflexivity | discriminate].
  - split; [reflexivity | discriminate].
  - split; [discriminate|].
    intros t v p H.
    destruct (detail_variants node) as [|v0 prices] eqn:Ev; [discriminate H|].
    destruct (lookup_product (hash_id h) cached) as [q|] eqn:El;
      [|discriminate H].
    injection H as <- <- <-.
    destruct (lookup_product_found _ _ El) as (_ & _ & Heq).
    exists node, nodes, prices.
    split; [reflexivity|]. split; [reflexivity|]. split; [exact Ev|].
    apply Heq. apply hash_id_length.
Qed.

Lemma product_detail_asks_shop_for_digest_witness :
  product_detail_outcome true
    (fun h => if str_eqb h long_handle
              then DetEdges [DetailNode (lit "Long rose") [PStr (lit "10")]]
              else DetFailed)
    [long_rose] (safe_callback_data (lit "product") long_handle)
  = NotInShop.
Proof.
  apply (@product_detail_asks_shop_for_digest
           (fun h => if str_eqb h long_handle
                     then DetEdges [DetailNode (lit "Long rose") [PStr (lit "10")]]
                     else DetFailed)
           [long_rose] long_handle).
  - vm_compute. reflexivity.
  - vm_compute. reflexivity.
Defined.

Lemma normalize_tag_no_separator_witness :
  In 114%N (@normalize_tag ascii_tables (lit " Red-Rose's "))
  /\ 114%N <> 32%N /\ 114%N <> 45%N /\ 114%N <> 39%N.
Proof.
  split.
  - vm_compute. left. reflexivity.
  - apply (@normalize_tag_no_separator ascii_tables (lit " Red-Rose's ")).
    vm_compute. left. reflexivity.
Defined.
